(** * springz-cal: the body-composition calculator of [src/app/page.tsx]

    A shallow embedding of the calculation logic of the
    [BodyCompositionCalculator] component: the U.S. Navy body-fat formula,
    the category table, the goal gate, the Katch-McArdle baseline and the
    goal adjustment, together with the three pieces of React state the
    handlers write ([baseResults], [goalResults], [selectedGoal]).

    A JavaScript [number] is an IEEE 754 binary64 value; it is modelled by
    Rocq's primitive [float], whose operations are the same binary64
    operations (round to nearest, ties to even) and whose literals are read
    with the same rounding as JavaScript's.  [Math.log10] is
    implementation-approximated in ECMAScript, so the development is
    parametric in it (class [JSMath]) and fixes only the results the
    standard prescribes. *)

From Stdlib Require Import ZArith Uint63 Floats List String Bool Lia.
Import ListNotations.

#[local] Set Warnings "-inexact-float".
#[local] Open Scope string_scope.
#[local] Open Scope float_scope.

(** ** Facts about binary64 comparison and the special values *)

Module FloatFacts.

(** [SFcompare] is a lexicographic comparison of (sign, exponent, mantissa);
    swapping its arguments flips the answer. *)
Lemma SFcompare_antisym (x y : spec_float) (c : comparison) :
  SFcompare x y = Some c -> SFcompare y x = Some (CompOpp c).
Proof.
  destruct x as [sx|sx| |sx mx ex], y as [sy|sy| |sy my ey]; cbn;
    try discriminate;
    try (destruct sx; intros [= <-]; reflexivity);
    try (destruct sy; intros [= <-]; reflexivity);
    try (destruct sx, sy; intros [= <-]; reflexivity);
    try (intros [= <-]; reflexivity).
  assert (Hm : Pos.compare_cont Eq my mx = CompOpp (Pos.compare_cont Eq mx my))
    by (symmetry; apply (Pos.compare_cont_antisym mx my Eq)).
  rewrite (Z.compare_antisym ex ey), Hm.
  destruct sx, sy; intros [= <-]; try reflexivity;
    destruct (ex ?= ey)%Z; cbn; try reflexivity;
    destruct (Pos.compare_cont Eq mx my); reflexivity.
Qed.

Lemma SFleb_trans (x y z : spec_float) :
  SFleb x y = true -> SFleb y z = true -> SFleb x z = true.
Proof.
  unfold SFleb.
  destruct x as [sx|sx| |sx mx ex], y as [sy|sy| |sy my ey],
           z as [sz|sz| |sz mz ez]; cbn;
    try discriminate; try reflexivity;
    try (destruct sx; try discriminate; try reflexivity);
    try (destruct sy; try discriminate; try reflexivity);
    try (destruct sz; try discriminate; try reflexivity);
    fold (Pos.compare mx my) (Pos.compare my mz) (Pos.compare mx mz);
    destruct (Z.compare_spec ex ey), (Z.compare_spec ey ez),
             (Z.compare_spec ex ez);
    try discriminate; try reflexivity; try lia; subst;
    destruct (Pos.compare_spec mx my), (Pos.compare_spec my mz),
             (Pos.compare_spec mx mz);
    cbn; try discriminate; try reflexivity; lia.
Qed.

(** [x <= y] and [y <= z] give [x <= z] on binary64 (none of them is NaN). *)
Lemma leb_trans (x y z : float) :
  (x <=? y) = true -> (y <=? z) = true -> (x <=? z) = true.
Proof. rewrite !leb_spec. apply SFleb_trans. Qed.

(** [y < x] excludes [x <= y]. *)
Lemma ltb_not_leb (x y : float) : (y <? x) = true -> (x <=? y) = false.
Proof.
  rewrite ltb_spec, leb_spec. unfold SFltb, SFleb.
  destruct (SFcompare (Prim2SF y) (Prim2SF x)) as [c|] eqn:E; try discriminate.
  rewrite (SFcompare_antisym _ _ _ E).
  destruct c; cbn; congruence.
Qed.

(** NaN is absorbing for the arithmetic operations. *)
Lemma mul_nan_r (x : float) : x * nan = nan.
Proof.
  apply Prim2SF_inj. rewrite mul_spec.
  change (Prim2SF nan) with S754_nan.
  destruct (Prim2SF x); reflexivity.
Qed.

Lemma sub_nan_l (y : float) : nan - y = nan.
Proof. apply Prim2SF_inj. rewrite sub_spec. reflexivity. Qed.

Lemma add_nan_l (y : float) : nan + y = nan.
Proof. apply Prim2SF_inj. rewrite add_spec. reflexivity. Qed.

(** [x < y] gives [x <= y]. *)
Lemma ltb_leb (x y : float) : (x <? y) = true -> (x <=? y) = true.
Proof.
  rewrite ltb_spec, leb_spec. unfold SFltb, SFleb.
  destruct (SFcompare (Prim2SF x) (Prim2SF y)) as [[| |]|];
    try discriminate; reflexivity.
Qed.

(** Subtracting a finite value from -Infinity leaves -Infinity. *)
Lemma sub_neg_infinity_finite (t : float) :
  is_finite t = true -> neg_infinity - t = neg_infinity.
Proof.
  unfold is_finite, is_nan, is_infinity.
  rewrite !FloatAxioms.eqb_spec, abs_spec. intros H.
  apply Prim2SF_inj. rewrite sub_spec.
  change (Prim2SF neg_infinity) with (S754_infinity true).
  change (Prim2SF infinity) with (S754_infinity false) in H.
  destruct (Prim2SF t) as [s|s| |s m e]; try reflexivity.
  - destruct s; discriminate H.
  - discriminate H.
Qed.

(** Every value that is not NaN compares equal to itself. *)
Lemma SFcompare_refl (a : spec_float) :
  a <> S754_nan -> SFcompare a a = Some Eq.
Proof.
  destruct a as [s|s| |s m e]; intros H; cbn.
  - reflexivity.
  - destruct s; reflexivity.
  - contradiction.
  - fold (Pos.compare m m). rewrite Z.compare_refl, Pos.compare_refl.
    destruct s; reflexivity.
Qed.

Lemma is_nan_Prim2SF (x : float) : is_nan x = true <-> Prim2SF x = S754_nan.
Proof.
  unfold is_nan. rewrite FloatAxioms.eqb_spec. unfold SFeqb. split.
  - intros H. destruct (Prim2SF x) as [s|s| |s m e] eqn:E; try reflexivity;
      rewrite SFcompare_refl in H by discriminate; discriminate H.
  - intros ->. reflexivity.
Qed.

Lemma SFcompare_comparable (a b : spec_float) :
  a <> S754_nan -> b <> S754_nan -> exists c, SFcompare a b = Some c.
Proof.
  destruct a as [sa|sa| |sa ma ea], b as [sb|sb| |sb mb eb];
    intros Ha Hb; try contradiction; cbn; eauto.
Qed.

Lemma SFcompare_not_nan (a b : spec_float) (c : comparison) :
  SFcompare a b = Some c -> a <> S754_nan /\ b <> S754_nan.
Proof.
  destruct a as [sa|sa| |sa ma ea], b as [sb|sb| |sb mb eb];
    cbn; intros H; try discriminate H; split; discriminate.
Qed.

(** The two sides of a true comparison are not NaN. *)
Lemma leb_not_nan (x y : float) :
  (x <=? y) = true -> is_nan x = false /\ is_nan y = false.
Proof.
  rewrite leb_spec. unfold SFleb.
  destruct (SFcompare (Prim2SF x) (Prim2SF y)) as [c|] eqn:E; [|discriminate].
  intros _. destruct (SFcompare_not_nan _ _ _ E) as [Hx Hy].
  split.
  - destruct (is_nan x) eqn:N; [apply is_nan_Prim2SF in N; contradiction | reflexivity].
  - destruct (is_nan y) eqn:N; [apply is_nan_Prim2SF in N; contradiction | reflexivity].
Qed.

Lemma ltb_not_nan (x y : float) :
  (x <? y) = true -> is_nan x = false /\ is_nan y = false.
Proof. intros H. apply leb_not_nan, ltb_leb, H. Qed.

(** On values that are not NaN the order is total. *)
Lemma not_ltb_leb (x y : float) :
  is_nan x = false -> is_nan y = false -> (x <? y) = false -> (y <=? x) = true.
Proof.
  intros Hx Hy. rewrite ltb_spec, leb_spec. unfold SFltb, SFleb.
  assert (Px : Prim2SF x <> S754_nan)
    by (intros E; apply is_nan_Prim2SF in E; congruence).
  assert (Py : Prim2SF y <> S754_nan)
    by (intros E; apply is_nan_Prim2SF in E; congruence).
  destruct (SFcompare_comparable _ _ Px Py) as [c E].
  rewrite E, (SFcompare_antisym _ _ _ E).
  destruct c; cbn; congruence.
Qed.

Lemma ltb_irrefl (x : float) : (x <? x) = false.
Proof.
  destruct (x <? x) eqn:E; [|reflexivity].
  pose proof (ltb_leb _ _ E) as H. rewrite (ltb_not_leb _ _ E) in H.
  discriminate H.
Qed.

(** [c < x] and [x <= y] give [c < y]. *)
Lemma ltb_leb_trans (c x y : float) :
  (c <? x) = true -> (x <=? y) = true -> (c <? y) = true.
Proof.
  intros Hcx Hxy. destruct (c <? y) eqn:E; [reflexivity|].
  destruct (ltb_not_nan _ _ Hcx) as [Nc _].
  destruct (leb_not_nan _ _ Hxy) as [_ Ny].
  pose proof (not_ltb_leb _ _ Nc Ny E) as Hyc.
  pose proof (leb_trans _ _ _ Hxy Hyc) as Hxc.
  rewrite (ltb_not_leb _ _ Hcx) in Hxc. discriminate Hxc.
Qed.

(** Multiplying by 1 is exact: the mantissa is shifted left by 52 bits and
    the rounding shifts it back without losing a bit. *)
Lemma mul_one_r (x : float) : x * 1 = x.
Proof.
  apply Prim2SF_inj. rewrite mul_spec.
  pose proof (Prim2SF_valid x) as Hv.
  change (Prim2SF 1) with (S754_finite false 4503599627370496 (-52)).
  destruct (Prim2SF x) as [s|s| |s m e];
    try (destruct s; reflexivity); try reflexivity.
  unfold SF64mul, SFmul. rewrite xorb_false_r.
  cbn [valid_binary] in Hv. unfold bounded, canonical_mantissa in Hv.
  apply andb_prop in Hv. destruct Hv as [Hc Hb].
  apply Z.eqb_eq in Hc.
  replace (m * 4503599627370496)%positive with (Pos.iter xO m 52)
    by (rewrite Pos.mul_comm; reflexivity).
  unfold binary_round_aux, shr_fexp.
  assert (Hd : Zdigits2 (Zpos (Pos.iter xO m 52))
               = (Zpos (digits2_pos m) + 52)%Z)
    by (cbn [Pos.iter Zdigits2 digits2_pos]; lia).
  rewrite Hd.
  replace (Z.pos (digits2_pos m) + 52 + (e + -52))%Z
    with (Z.pos (digits2_pos m) + e)%Z by lia.
  rewrite Hc.
  replace (e - (e + -52))%Z with 52%Z by lia.
  cbn [shr shr_record_of_loc].
  assert (Hs : iter_pos shr_1 52
                 {| shr_m := Z.pos (Pos.iter xO m 52);
                    shr_r := false; shr_s := false |}
               = {| shr_m := Z.pos m; shr_r := false; shr_s := false |})
    by reflexivity.
  rewrite Hs. cbn [shr_m loc_of_shr_record round_nearest_even Zdigits2].
  replace (e + -52 + 52)%Z with e by lia.
  rewrite Hc, Z.sub_diag. cbn [shr shr_m]. rewrite Hb. reflexivity.
Qed.

End FloatFacts.

(** ** Rounding of products and quotients in binary64

    [SFmul] and [SFdiv] round to nearest, ties to even.  For a value of
    normal magnitude multiplied by a constant close to 1 and divided by
    itself again, the mantissa that comes back is within one unit of the
    constant's. *)

Module Rounding.

#[local] Open Scope Z_scope.

(** The number of binary digits of a positive number. *)
Lemma digits2_pos_bounds (p : positive) :
  (2 ^ (Z.pos (digits2_pos p) - 1) <= Z.pos p < 2 ^ Z.pos (digits2_pos p))%Z.
Proof.
  induction p as [p IH|p IH|]; cbn [digits2_pos].
  - rewrite Pos2Z.inj_succ.
    replace (Z.succ (Z.pos (digits2_pos p)) - 1)%Z with (Z.succ (Z.pos (digits2_pos p) - 1)) by lia.
    rewrite !Z.pow_succ_r by lia. lia.
  - rewrite Pos2Z.inj_succ.
    replace (Z.succ (Z.pos (digits2_pos p)) - 1)%Z with (Z.succ (Z.pos (digits2_pos p) - 1)) by lia.
    rewrite !Z.pow_succ_r by lia. lia.
  - cbn. lia.
Qed.

Lemma digits2_pos_unique (p : positive) (d : Z) :
  (0 < d)%Z -> (2 ^ (d - 1) <= Z.pos p < 2 ^ d)%Z -> Z.pos (digits2_pos p) = d.
Proof.
  intros Hd [Hlo Hhi].
  pose proof (digits2_pos_bounds p) as [Blo Bhi].
  destruct (Z.lt_trichotomy (Z.pos (digits2_pos p)) d) as [H|[H|H]]; [|exact H|].
  - assert (2 ^ Z.pos (digits2_pos p) <= 2 ^ (d - 1))%Z by (apply Z.pow_le_mono_r; lia). lia.
  - assert (2 ^ d <= 2 ^ (Z.pos (digits2_pos p) - 1))%Z by (apply Z.pow_le_mono_r; lia). lia.
Qed.

(** A finite value that is not zero, divided by itself, gives exactly 1. *)
Lemma div_self (x : float) :
  (is_finite x = true -> (x =? 0) = false -> x / x = 1)%float.
Proof.
  unfold is_finite, is_nan, is_infinity.
  rewrite !FloatAxioms.eqb_spec, abs_spec. intros Hf Hz.
  apply Prim2SF_inj. rewrite div_spec.
  change (Prim2SF 1) with (S754_finite false 4503599627370496 (-52)).
  change (Prim2SF infinity) with (S754_infinity false) in Hf.
  change (Prim2SF 0) with (S754_zero false) in Hz.
  destruct (Prim2SF x) as [s|s| |s m e].
  - discriminate Hz.
  - destruct s; discriminate Hf.
  - discriminate Hf.
  - clear Hf Hz. unfold SF64div, SFdiv, SFdiv_core_binary.
    rewrite xorb_nilpotent.
    replace (Zdigits2 (Z.pos m) + e - (Zdigits2 (Z.pos m) + e))%Z with 0%Z by lia.
    rewrite Z.sub_diag.
    change (Z.min (fexp prec emax 0) 0) with (-53)%Z.
    change (0 - -53)%Z with 53%Z. cbv iota.
    rewrite Z.shiftl_mul_pow2 by lia.
    assert (Hq : Z.div_eucl (Z.pos m * 2 ^ 53) (Z.pos m) = (2 ^ 53, 0)%Z).
    { pose proof (Z_div_mod_full (Z.pos m * 2 ^ 53) (Z.pos m) ltac:(lia)) as H.
      destruct (Z.div_eucl (Z.pos m * 2 ^ 53) (Z.pos m)) as [q r].
      destruct H as [H1 H2]. red in H2.
      assert (q = 2 ^ 53)%Z by nia. assert (r = 0)%Z by nia. subst. reflexivity. }
    rewrite Hq. unfold new_location.
    destruct (Z.even (Z.pos m)); reflexivity.
Qed.

Lemma shr_1_spec (m : Z) (r s : bool) :
  0 <= m ->
  shr_1 {| shr_m := m; shr_r := r; shr_s := s |}
  = {| shr_m := Z.div2 m; shr_r := Z.odd m; shr_s := r || s |}.
Proof.
  intros Hm. destruct m as [|p|p]; [reflexivity | destruct p; reflexivity | lia].
Qed.

(** After [k >= 1] right shifts of the exact [M]: the kept part, the round
    bit and the sticky bit split [M] as [m' * 2^k + r * 2^(k-1) + low]. *)
Lemma shr_iter_spec (k : nat) (M : Z) :
  0 <= M ->
  exists m' r s low,
    Nat.iter (S k) shr_1 {| shr_m := M; shr_r := false; shr_s := false |}
    = {| shr_m := m'; shr_r := r; shr_s := s |}
    /\ 0 <= m'
    /\ 0 <= low < 2 ^ Z.of_nat k
    /\ M = m' * 2 ^ (Z.of_nat k + 1) + Z.b2z r * 2 ^ Z.of_nat k + low
    /\ (s = false <-> low = 0).
Proof.
  intros HM. induction k as [|k IH].
  - cbn [Nat.iter]. rewrite shr_1_spec by exact HM.
    exists (Z.div2 M), (Z.odd M), false, 0. split; [reflexivity|].
    pose proof (Z.div2_odd M) as H. pose proof (Z.div2_nonneg M) as H2.
    change (2 ^ Z.of_nat 0) with 1. change (2 ^ (Z.of_nat 0 + 1)) with 2.
    repeat split; try lia.
  - destruct IH as [m' [r [s [low [E [Hm' [Hlow [HM' Hs]]]]]]]].
    change (Nat.iter (S (S k)) shr_1 ?x) with (shr_1 (Nat.iter (S k) shr_1 x)).
    rewrite E, shr_1_spec by exact Hm'.
    exists (Z.div2 m'), (Z.odd m'), (r || s)%bool, (Z.b2z r * 2 ^ Z.of_nat k + low).
    split; [reflexivity|].
    pose proof (Z.div2_odd m') as H. pose proof (Z.div2_nonneg m') as H2.
    rewrite Nat2Z.inj_succ.
    replace (Z.succ (Z.of_nat k) + 1) with (Z.succ (Z.of_nat k + 1)) by lia.
    rewrite !Z.pow_succ_r by lia.
    assert (0 < 2 ^ Z.of_nat k) by (apply Z.pow_pos_nonneg; lia).
    split; [lia|].
    split; [destruct r; cbn [Z.b2z]; lia|].
    split.
    + rewrite HM'. rewrite H at 1.
      replace (2 ^ (Z.of_nat k + 1)) with (2 * 2 ^ Z.of_nat k)
        by (rewrite Z.pow_add_r by lia; lia).
      ring.
    + destruct r; cbn [orb Z.b2z]; split; intros Hx; try discriminate; try lia.
      * apply Hs in Hx. lia.
      * apply Hs. lia.
Qed.

(** Round to nearest, ties to even, after [k >= 1] shifts: the result is
    within half a unit of the exact quotient. *)
Lemma round_shift_spec (k : nat) (M : Z) :
  0 <= M ->
  let rec := Nat.iter (S k) shr_1 {| shr_m := M; shr_r := false; shr_s := false |} in
  let R := round_nearest_even (shr_m rec) (loc_of_shr_record rec) in
  0 <= R /\ Z.abs (R * 2 ^ (Z.of_nat k + 1) - M) <= 2 ^ Z.of_nat k.
Proof.
  intros HM. cbv zeta.
  destruct (shr_iter_spec k M HM) as [m' [r [s [low [E [Hm' [Hlow [HM' Hs]]]]]]]].
  rewrite E. cbn [shr_m loc_of_shr_record].
  assert (Hp : 0 < 2 ^ Z.of_nat k) by (apply Z.pow_pos_nonneg; lia).
  assert (H2 : 2 ^ (Z.of_nat k + 1) = 2 * 2 ^ Z.of_nat k)
    by (rewrite Z.pow_add_r by lia; lia).
  rewrite H2 in *.
  destruct r, s; cbn [round_nearest_even Z.b2z] in *.
  - assert (low <> 0) by (intros Hx; apply Hs in Hx; discriminate). split; lia.
  - assert (low = 0) by (apply Hs; reflexivity). destruct (Z.even m'); split; lia.
  - assert (low <> 0) by (intros Hx; apply Hs in Hx; discriminate). split; lia.
  - assert (low = 0) by (apply Hs; reflexivity). split; lia.
Qed.

Lemma iter_pos_nat {A : Type} (f : A -> A) (p : positive) (x : A) :
  iter_pos f p x = Nat.iter (Pos.to_nat p) f x.
Proof.
  revert x. induction p as [p IH|p IH|]; intros x; cbn [iter_pos].
  - rewrite !IH, Pos2Nat.inj_xI, <- Nat.iter_succ_r, <- Nat.iter_add.
    f_equal. lia.
  - rewrite !IH, Pos2Nat.inj_xO, <- Nat.iter_add. f_equal. lia.
  - reflexivity.
Qed.

(** Rounding an exact integer [M] of [53 + k] binary digits, [k >= 1], at
    an exponent where neither underflow nor overflow occurs. *)
Lemma binary_round_aux_normal (s : bool) (M : positive) (E : Z) (k : positive) :
  Z.pos (digits2_pos M) = 53 + Z.pos k ->
  -1074 <= E + Z.pos k ->
  E + Z.pos k + 1 <= 971 ->
  exists mp t,
    binary_round_aux prec emax s (Z.pos M) E loc_Exact
    = S754_finite s mp (E + t)
    /\ 2 ^ 52 <= Z.pos mp < 2 ^ 53
    /\ (t = Z.pos k \/ t = Z.pos k + 1)
    /\ 2 * Z.abs (Z.pos mp * 2 ^ t - Z.pos M) <= 2 ^ Z.pos k.
Proof.
  intros Hd Hlo Hhi.
  pose proof (digits2_pos_bounds M) as HM. rewrite Hd in HM.
  unfold binary_round_aux, shr_fexp. cbn [Zdigits2]. rewrite Hd.
  unfold fexp, SpecFloat.emin. change (3 - emax - prec) with (-1074).
  change prec with 53. change emax with 1024.
  rewrite Z.max_l by lia.
  replace (53 + Z.pos k + E - 53 - E) with (Z.pos k) by lia.
  cbn [shr shr_record_of_loc]. rewrite iter_pos_nat.
  destruct (Pos2Nat.is_succ k) as [n Hn]. rewrite Hn.
  assert (Hk : Z.pos k = Z.of_nat n + 1) by lia.
  pose proof (round_shift_spec n (Z.pos M) ltac:(lia)) as HR. cbv zeta in HR.
  set (R := round_nearest_even _ _) in *.
  destruct HR as [HR0 HR].
  rewrite <- Hk in HR.
  assert (Hp : 0 < 2 ^ Z.of_nat n) by (apply Z.pow_pos_nonneg; lia).
  assert (H2k : 2 ^ Z.pos k = 2 * 2 ^ Z.of_nat n)
    by (rewrite Hk, Z.pow_add_r by lia; lia).
  assert (H52 : 2 ^ (53 + Z.pos k - 1) = 2 ^ 52 * 2 ^ Z.pos k)
    by (replace (53 + Z.pos k - 1) with (52 + Z.pos k) by lia;
        rewrite Z.pow_add_r by lia; reflexivity).
  assert (H53 : 2 ^ (53 + Z.pos k) = 2 ^ 53 * 2 ^ Z.pos k)
    by (rewrite Z.pow_add_r by lia; reflexivity).
  rewrite H52, H53 in HM.
  set (P := 2 ^ Z.of_nat n) in *.
  assert (HRb : 2 ^ 52 <= R <= 2 ^ 53) by (rewrite H2k in *; nia).
  destruct R as [|Rp|Rp] eqn:ER; try lia.
  destruct (Z.eq_dec (Z.pos Rp) (2 ^ 53)) as [Hc|Hc].
  - (* the rounding carried into the next binade *)
    injection Hc as ->.
    exists 4503599627370496%positive, (Z.pos k + 1).
    cbn [Zdigits2]. change (digits2_pos 9007199254740992) with 54%positive.
    rewrite Z.max_l by lia.
    replace (54 + (E + Z.pos k) - 53 - (E + Z.pos k)) with 1 by lia.
    cbn [shr iter_pos shr_1 shr_m].
    rewrite (proj2 (Z.leb_le _ _)) by lia.
    split; [f_equal; lia|]. split; [cbn; lia|]. split; [right; reflexivity|].
    rewrite Z.pow_add_r by lia. rewrite H2k in *. nia.
  - exists Rp, (Z.pos k).
    assert (Hd' : Z.pos (digits2_pos Rp) = 53)
      by (apply digits2_pos_unique; lia).
    cbn [Zdigits2]. rewrite Hd'.
    rewrite Z.max_l by lia.
    replace (53 + (E + Z.pos k) - 53 - (E + Z.pos k)) with 0 by lia.
    cbn [shr shr_m].
    rewrite (proj2 (Z.leb_le _ _)) by lia.
    split; [reflexivity|]. split; [lia|]. split; [left; reflexivity|].
    rewrite H2k in *. lia.
Qed.

(** The second half of [binary_round_aux]: renormalise and check overflow. *)
Definition finish_round (sx : bool) (R e' : Z) : spec_float :=
  let '(mrs'', e'') := shr_fexp prec emax R e' loc_Exact in
  match shr_m mrs'' with
  | Z0 => S754_zero sx
  | Zpos m =>
      if Z.leb e'' (Z.sub emax prec) then S754_finite sx m e''
      else S754_infinity sx
  | _ => S754_nan
  end.

Lemma binary_round_aux_eq (sx : bool) (mx ex : Z) (lx : location) :
  binary_round_aux prec emax sx mx ex lx
  = let '(mrs', e') := shr_fexp prec emax mx ex lx in
    finish_round sx
      (round_nearest_even (shr_m mrs') (loc_of_shr_record mrs')) e'.
Proof. reflexivity. Qed.

Lemma finish_round_53 (sx : bool) (R e' : Z) :
  2 ^ 52 <= R < 2 ^ 53 -> -1074 <= e' <= 971 ->
  exists Q, R = Z.pos Q /\ finish_round sx R e' = S754_finite sx Q e'.
Proof.
  intros HR He. destruct R as [|Q|Q]; try lia. exists Q. split; [reflexivity|].
  assert (Hd : Z.pos (digits2_pos Q) = 53) by (apply digits2_pos_unique; lia).
  unfold finish_round, shr_fexp. cbn [Zdigits2]. rewrite Hd.
  unfold fexp, SpecFloat.emin. change (3 - emax - prec) with (-1074).
  change prec with 53. change emax with 1024.
  rewrite Z.max_l by lia.
  replace (53 + e' - 53 - e') with 0 by lia.
  cbn [shr shr_record_of_loc shr_m].
  rewrite (proj2 (Z.leb_le _ _)) by lia. reflexivity.
Qed.

Lemma round_nearest_even_bounds (m : Z) (l : location) :
  m <= round_nearest_even m l <= m + 1.
Proof.
  destruct l as [|[| |]]; cbn [round_nearest_even]; try lia.
  destruct (Z.even m); lia.
Qed.

(** Rounding a 53-digit quotient with its location: no shift, the mantissa
    stays or goes up by one. *)
Lemma round_no_shift (q : positive) (e' : Z) (loc : location) :
  2 ^ 52 <= Z.pos q -> Z.pos q + 1 < 2 ^ 53 -> -1074 <= e' <= 971 ->
  exists Q,
    binary_round_aux prec emax false (Z.pos q) e' loc = S754_finite false Q e'
    /\ Z.pos q <= Z.pos Q <= Z.pos q + 1.
Proof.
  intros Hlo Hhi He.
  assert (Hd : Z.pos (digits2_pos q) = 53) by (apply digits2_pos_unique; lia).
  rewrite binary_round_aux_eq. unfold shr_fexp. cbn [Zdigits2]. rewrite Hd.
  unfold fexp, SpecFloat.emin. change (3 - emax - prec) with (-1074).
  change prec with 53. change emax with 1024.
  rewrite Z.max_l by lia.
  replace (53 + e' - 53 - e') with 0 by lia. cbn [shr].
  assert (Hm : shr_m (shr_record_of_loc (Z.pos q) loc) = Z.pos q)
    by (destruct loc as [|[| |]]; reflexivity).
  rewrite Hm.
  pose proof (round_nearest_even_bounds (Z.pos q)
                (loc_of_shr_record (shr_record_of_loc (Z.pos q) loc))) as HR.
  set (R := round_nearest_even _ _) in *.
  destruct (finish_round_53 false R e' ltac:(lia) He) as [Q [EQ HQ]].
  exists Q. rewrite HQ. split; [reflexivity | rewrite <- EQ; exact HR].
Qed.

(** Rounding a 54-digit quotient with its location: one shift, the halved
    mantissa stays or goes up by one. *)
Lemma round_one_shift (q : positive) (e' : Z) (loc : location) :
  2 ^ 53 <= Z.pos q -> Z.div2 (Z.pos q) + 1 < 2 ^ 53 -> -1075 <= e' <= 970 ->
  exists Q,
    binary_round_aux prec emax false (Z.pos q) e' loc
    = S754_finite false Q (e' + 1)
    /\ Z.div2 (Z.pos q) <= Z.pos Q <= Z.div2 (Z.pos q) + 1.
Proof.
  intros Hlo Hhi He.
  pose proof (Z.div2_odd (Z.pos q)) as Hq.
  assert (Hb : 0 <= Z.b2z (Z.odd (Z.pos q)) <= 1)
    by (destruct (Z.odd (Z.pos q)); cbn; lia).
  assert (Hd : Z.pos (digits2_pos q) = 54) by (apply digits2_pos_unique; lia).
  rewrite binary_round_aux_eq. unfold shr_fexp. cbn [Zdigits2]. rewrite Hd.
  unfold fexp, SpecFloat.emin. change (3 - emax - prec) with (-1074).
  change prec with 53. change emax with 1024.
  rewrite Z.max_l by lia.
  replace (54 + e' - 53 - e') with 1 by lia. cbn [shr iter_pos].
  assert (Hm : shr_m (shr_1 (shr_record_of_loc (Z.pos q) loc))
               = Z.div2 (Z.pos q))
    by (destruct loc as [|[| |]]; cbn [shr_record_of_loc];
        rewrite shr_1_spec by lia; reflexivity).
  rewrite Hm.
  pose proof (round_nearest_even_bounds (Z.div2 (Z.pos q))
                (loc_of_shr_record (shr_1 (shr_record_of_loc (Z.pos q) loc))))
    as HR.
  set (R := round_nearest_even _ _) in *.
  destruct (finish_round_53 false R (e' + 1) ltac:(lia) ltac:(lia))
    as [Q [EQ HQ]].
  exists Q. rewrite HQ. split; [reflexivity | rewrite <- EQ; exact HR].
Qed.

(** The product of a normal [m * 2^e] by a constant [mc * 2^ec] close to 1:
    the stored mantissa [mp], read at the scale of [m], lies within one
    unit of [mc]. *)
Lemma SFmul_normal (s : bool) (m mc : positive) (e ec : Z) :
  2 ^ 52 <= Z.pos m < 2 ^ 53 -> -1073 <= e <= 969 ->
  2 ^ 52 < Z.pos mc <= 2 ^ 53 - 2 -> -53 <= ec <= -52 ->
  exists mp t,
    SFmul prec emax (S754_finite s m e) (S754_finite false mc ec)
    = S754_finite s mp (e + ec + t)
    /\ 2 ^ 52 <= Z.pos mp < 2 ^ 53
    /\ (t = 52 \/ t = 53)
    /\ (Z.pos mc - 1) * Z.pos m <= Z.pos mp * 2 ^ t < (Z.pos mc + 1) * Z.pos m.
Proof.
  intros Hm He Hmc Hec.
  unfold SFmul. rewrite xorb_false_r.
  assert (HM : Z.pos (m * mc) = Z.pos m * Z.pos mc) by reflexivity.
  assert (HMlo : 2 ^ 104 < Z.pos (m * mc)) by (rewrite HM; nia).
  assert (HMhi : Z.pos (m * mc) < 2 ^ 106 - 2 ^ 52) by (rewrite HM; nia).
  destruct (Z_lt_le_dec (Z.pos (m * mc)) (2 ^ 105)) as [Hs|Hl].
  - assert (Hd : Z.pos (digits2_pos (m * mc)) = 53 + 52)
      by (apply digits2_pos_unique; lia).
    destruct (binary_round_aux_normal s (m * mc) (e + ec) 52 Hd
                ltac:(lia) ltac:(lia))
      as [mp [t [E [Hmp [Ht Hr]]]]].
    exists mp, t. split; [exact E|]. split; [exact Hmp|].
    rewrite HM in *.
    destruct Ht as [-> | ->]; (split; [auto|]); lia.
  - assert (Hd : Z.pos (digits2_pos (m * mc)) = 53 + 53)
      by (apply digits2_pos_unique; lia).
    destruct (binary_round_aux_normal s (m * mc) (e + ec) 53 Hd
                ltac:(lia) ltac:(lia))
      as [mp [t [E [Hmp [Ht Hr]]]]].
    assert (Hm' : 2 ^ 52 < Z.pos m) by (rewrite HM in Hl; nia).
    exists mp, t. split; [exact E|]. split; [exact Hmp|].
    rewrite HM in *.
    destruct Ht as [-> | ->]; [split; [auto | lia] | exfalso].
    change (53 + 1) with 54 in Hr. lia.
Qed.

(** Dividing that product by [m * 2^e] again gives a mantissa within one
    unit of [mc], at the exponent of the constant. *)
Lemma SFdiv_normal (s : bool) (m mp mc : positive) (e ec t : Z) :
  2 ^ 52 <= Z.pos m < 2 ^ 53 -> 2 ^ 52 <= Z.pos mp < 2 ^ 53 ->
  2 ^ 52 < Z.pos mc <= 2 ^ 53 - 2 -> -53 <= ec <= -52 ->
  (t = 52 \/ t = 53) ->
  (Z.pos mc - 1) * Z.pos m <= Z.pos mp * 2 ^ t < (Z.pos mc + 1) * Z.pos m ->
  exists Q,
    SFdiv prec emax (S754_finite s mp (e + ec + t)) (S754_finite s m e)
    = S754_finite false Q ec
    /\ Z.pos mc - 1 <= Z.pos Q <= Z.pos mc + 1.
Proof.
  intros Hm Hmp Hmc Hec Ht Hrel.
  assert (Hdm : Z.pos (digits2_pos m) = 53) by (apply digits2_pos_unique; lia).
  assert (Hdp : Z.pos (digits2_pos mp) = 53) by (apply digits2_pos_unique; lia).
  unfold SFdiv, SFdiv_core_binary. rewrite xorb_nilpotent.
  cbn [Zdigits2]. rewrite Hdm, Hdp.
  replace (53 + (e + ec + t) - (53 + e)) with (ec + t) by lia.
  replace (e + ec + t - e) with (ec + t) by lia.
  unfold fexp, SpecFloat.emin. change (3 - emax - prec) with (-1074).
  change prec with 53. change emax with 1024.
  rewrite Z.max_l by lia. rewrite Z.min_l by lia.
  replace (ec + t - (ec + t - 53)) with 53 by lia. cbv iota.
  rewrite Z.shiftl_mul_pow2 by lia.
  pose proof (Z_div_mod_full (Z.pos mp * 2 ^ 53) (Z.pos m) ltac:(lia)) as Hdiv.
  destruct (Z.div_eucl (Z.pos mp * 2 ^ 53) (Z.pos m)) as [q r].
  destruct Hdiv as [Hq Hr]. red in Hr.
  assert (Hr' : 0 <= r < Z.pos m) by lia. clear Hr.
  generalize (new_location (Z.pos m) r). intros loc.
  change (2 ^ 53) with 9007199254740992 in Hq.
  destruct Ht as [-> | ->].
  - (* the product kept the exponent: the quotient has 54 digits *)
    change (2 ^ 52) with 4503599627370496 in Hrel.
    assert (Hqb : 2 * Z.pos mc - 2 <= q <= 2 * Z.pos mc + 1) by nia.
    destruct q as [|qp|qp]; try lia.
    pose proof (Z.div2_odd (Z.pos qp)) as Hq2.
    assert (Hb : 0 <= Z.b2z (Z.odd (Z.pos qp)) <= 1)
      by (destruct (Z.odd (Z.pos qp)); cbn; lia).
    destruct (round_one_shift qp (ec + 52 - 53) loc
                ltac:(lia) ltac:(lia) ltac:(lia)) as [Q [EQ HQ]].
    change prec with 53 in EQ. change emax with 1024 in EQ.
    exists Q. rewrite EQ. split; [f_equal; lia | lia].
  - (* the product went up one exponent: the quotient has 53 digits *)
    change (2 ^ 53) with 9007199254740992 in Hrel.
    assert (Hqb : Z.pos mc - 1 <= q <= Z.pos mc) by nia.
    destruct q as [|qp|qp]; try lia.
    destruct (round_no_shift qp (ec + 53 - 53) loc
                ltac:(lia) ltac:(lia) ltac:(lia)) as [Q [EQ HQ]].
    change prec with 53 in EQ. change emax with 1024 in EQ.
    exists Q. rewrite EQ. split; [f_equal; lia | lia].
Qed.

End Rounding.

(** ** The part of the JavaScript runtime the component calls *)

Definition is_pos_zero (x : float) : bool := is_zero x && negb (get_sign x).
Definition is_neg_zero (x : float) : bool := is_zero x && get_sign x.

(** [Math.min(a, b)], ECMAScript 21.3.2.25: NaN if either argument is NaN,
    [-0] counts as smaller than [+0], otherwise the smaller argument. *)
Definition Math_min (a b : float) : float :=
  if is_nan a || is_nan b then nan
  else if is_pos_zero a && is_neg_zero b then b
  else if b <? a then b else a.

(** [Math.max(a, b)], ECMAScript 21.3.2.24: NaN if either argument is NaN,
    [+0] counts as larger than [-0], otherwise the larger argument. *)
Definition Math_max (a b : float) : float :=
  if is_nan a || is_nan b then nan
  else if is_neg_zero a && is_pos_zero b then b
  else if a <? b then b else a.

(** [Math.log10], ECMAScript 21.3.2.21: the result is
    implementation-approximated, except on the arguments listed here. *)
Class JSMath := {
  Math_log10 : float -> float;
  log10_nan : Math_log10 nan = nan;
  log10_negative : forall x, (x <? 0) = true -> Math_log10 x = nan;
  log10_zero : forall x, (x =? 0) = true -> Math_log10 x = neg_infinity;
  log10_one : Math_log10 1 = 0;
  log10_infinity : Math_log10 infinity = infinity
}.

(** A runnable [Math.log10]: the prescribed results on the special
    arguments, and on a positive finite [x = m * 2^e] the value
    [e * log10 2 + 2 * atanh ((m - 1) / (m + 1)) / ln 10] with the series of
    [atanh] cut after twelve terms. *)
Module RefMath.

Definition float_of_Z (z : Z) : float :=
  match z with
  | Z0 => 0
  | Zpos _ => of_uint63 (Uint63.of_Z z)
  | Zneg _ => - of_uint63 (Uint63.of_Z (Z.opp z))
  end.

Definition atanh_series (t : float) : float :=
  let u := t * t in
  t * fold_right (fun c acc => c + u * acc) 0
        (map (fun k => 1 / float_of_Z k) [1; 3; 5; 7; 9; 11; 13; 15; 17; 19; 21; 23]%Z).

Definition log10 (x : float) : float :=
  if is_nan x then nan
  else if x <? 0 then nan
  else if x =? 0 then neg_infinity
  else if x =? infinity then infinity
  else
    let (m, e) := Z.frexp x in
    let (m, e) := if m <? 0.70710678118654757 then (m * 2, (e - 1)%Z) else (m, e) in
    let t := (m - 1) / (m + 1) in
    float_of_Z e * 0.3010299956639812 + 2 * atanh_series t / 2.302585092994046.

Lemma log10_of_negative (x : float) : (x <? 0) = true -> log10 x = nan.
Proof.
  intros H. unfold log10. rewrite H. destruct (is_nan x); reflexivity.
Qed.

Lemma log10_of_zero (x : float) : (x =? 0) = true -> log10 x = neg_infinity.
Proof.
  intros H. unfold log10. rewrite H.
  assert (Hn : is_nan x = false).
  { unfold is_nan. rewrite FloatAxioms.eqb_spec in *. unfold SFeqb in *.
    destruct (Prim2SF x) as [s|s| |s m e]; cbn in *;
      try discriminate; try reflexivity; destruct s; discriminate. }
  assert (Hl : (x <? 0) = false).
  { rewrite FloatAxioms.eqb_spec in H. rewrite ltb_spec.
    unfold SFeqb, SFltb in *.
    destruct (SFcompare (Prim2SF x) (Prim2SF 0)) as [[| |]|];
      try discriminate; reflexivity. }
  rewrite Hn, Hl. reflexivity.
Qed.

End RefMath.

#[export] Instance ref_math : JSMath := {|
  Math_log10 := RefMath.log10;
  log10_nan := eq_refl;
  log10_negative := RefMath.log10_of_negative;
  log10_zero := RefMath.log10_of_zero;
  log10_one := eq_refl;
  log10_infinity := eq_refl
|}.

(** ** Data model ([src/app/page.tsx], lines 5-72) *)

Inductive Gender := male | female.

(** The five keys of [exerciseLevel]:
    ['sedentary' | '1-2x' | '3-5x' | 'daily' | 'twice-daily']. *)
Inductive ExerciseLevel := sedentary | x1_2 | x3_5 | daily | twice_daily.

(** The five keys of [GoalResults.goal] and of [GOAL_ADJUSTMENTS]. *)
Inductive GoalKey := maintenance | fat_loss | muscle_gain | weight_gain | recomposition.

(** The string a goal key is in the source. *)
Definition goalKeyString (g : GoalKey) : string :=
  match g with
  | maintenance => "maintenance"
  | fat_loss => "fat-loss"
  | muscle_gain => "muscle-gain"
  | weight_gain => "weight-gain"
  | recomposition => "recomposition"
  end.

Record FormData := {
  gender : Gender;
  age : float;
  weight : float;
  height : float;
  neck : float;
  waist : float;
  hip : float;
  exerciseLevel : ExerciseLevel
}.

Record BaseResults := {
  bodyFatPercentage : float;
  bodyFatCategory : string;
  leanBodyMass : float;
  baseCalories : float;
  baseProtein : float;
  allowedGoals : list string;
  restrictionMessage : string
}.

Record GoalResults := {
  goal : GoalKey;
  revisedCalorieTarget : float;
  revisedProteinTarget : float
}.

Definition EXERCISE_MULTIPLIERS (l : ExerciseLevel) : float :=
  match l with
  | sedentary => 1.2
  | x1_2 => 1.5
  | x3_5 => 1.7
  | daily => 1.95
  | twice_daily => 2.2
  end.

Definition ACTIVITY_FACTORS (l : ExerciseLevel) : float :=
  match l with
  | sedentary => 1.2
  | x1_2 => 1.375
  | x3_5 => 1.55
  | daily => 1.725
  | twice_daily => 1.9
  end.

Record GoalAdjustment := { calorie : float; protein : float }.

Definition GOAL_ADJUSTMENTS (g : GoalKey) : GoalAdjustment :=
  match g with
  | maintenance => {| calorie := 1.0; protein := 1.0 |}
  | fat_loss => {| calorie := 0.8; protein := 1.2 |}
  | muscle_gain => {| calorie := 1.1; protein := 1.25 |}
  | weight_gain => {| calorie := 1.2; protein := 1.2 |}
  | recomposition => {| calorie := 1.0; protein := 1.25 |}
  end.

Record CategoryEntry := { max : float; category : string; color : string }.

(** U.S. Navy body fat categories, in the order of the source arrays. *)
Definition BODY_FAT_CATEGORIES (g : Gender) : list CategoryEntry :=
  match g with
  | male =>
      [ {| max := 13; category := "Excellent"; color := "green" |};
        {| max := 16; category := "Good"; color := "blue" |};
        {| max := 20; category := "Average"; color := "yellow" |};
        {| max := 22; category := "Above Average"; color := "orange" |};
        {| max := infinity; category := "Obese"; color := "red" |} ]
  | female =>
      [ {| max := 16; category := "Excellent"; color := "green" |};
        {| max := 19; category := "Good"; color := "blue" |};
        {| max := 28; category := "Average"; color := "yellow" |};
        {| max := 33; category := "Above Average"; color := "orange" |};
        {| max := infinity; category := "Obese"; color := "red" |} ]
  end.

(** The component's state: the four [useState] cells. *)
Record State := {
  formData : FormData;
  baseResults : option BaseResults;
  goalResults : option GoalResults;
  selectedGoal : string
}.

Definition initialState : State := {|
  formData := {| gender := male; age := 25; weight := 70; height := 175;
                 neck := 35; waist := 80; hip := 95;
                 exerciseLevel := sedentary |};
  baseResults := None;
  goalResults := None;
  selectedGoal := ""
|}.

(** ** The calculation functions ([src/app/page.tsx], lines 90-177) *)

Definition is_male (g : Gender) : bool :=
  match g with male => true | female => false end.
Definition is_female (g : Gender) : bool :=
  match g with male => false | female => true end.

Record GoalRestrictions := { allowed : list string; message : string }.

Definition getBodyFatCategory (bodyFat : float) (gender : Gender)
  : option CategoryEntry :=
  let categories := BODY_FAT_CATEGORIES gender in
  match find (fun cat => bodyFat <=? cat.(max)) categories with
  | Some cat => Some cat
  | None => nth_error categories (List.length categories - 1)
  end.

Definition isObese (bodyFat : float) (gender : Gender) : bool :=
  (is_male gender && (22 <? bodyFat)) || (is_female gender && (33 <? bodyFat)).

Definition isAboveAverage (bodyFat : float) (gender : Gender) : bool :=
  (is_male gender && (20 <? bodyFat) && (bodyFat <=? 22))
  || (is_female gender && (28 <? bodyFat) && (bodyFat <=? 33)).

Definition getAllowedGoals (bodyFat : float) (gender : Gender) : GoalRestrictions :=
  if isObese bodyFat gender then
    {| allowed := ["fat-loss"];
       message := "Due to elevated body fat levels, only Fat Loss goal is recommended for health." |}
  else if isAboveAverage bodyFat gender then
    {| allowed := ["maintenance"; "fat-loss"; "muscle-gain"; "recomposition"];
       message := "Weight Gain is not recommended at current body fat levels." |}
  else
    {| allowed := ["maintenance"; "fat-loss"; "muscle-gain"; "weight-gain"; "recomposition"];
       message := "All goals are available based on your current body composition." |}.

Section Calculator.

Context {M : JSMath}.

Definition calculateBodyFat (data : FormData) : float :=
  let waistInches := data.(waist) / 2.54 in
  let neckInches := data.(neck) / 2.54 in
  let heightInches := data.(height) / 2.54 in
  let hipInches := data.(hip) / 2.54 in
  match data.(gender) with
  | male =>
      86.010 * Math_log10 (waistInches - neckInches)
      - 70.041 * Math_log10 heightInches + 36.76
  | female =>
      163.205 * Math_log10 (waistInches + hipInches - neckInches)
      - 97.684 * Math_log10 heightInches - 78.387
  end.

(** [calculateBaseStats] reads [formData] and writes the three other cells.
    [None] is the [TypeError] of [category.category] on [undefined], which
    [calculateBaseStats_total] shows never happens. *)
Definition calculateBaseStats (s : State) : option State :=
  let data := s.(formData) in
  let bodyFatPercentage := Math_max 0 (Math_min 50 (calculateBodyFat data)) in
  let leanBodyMass := data.(weight) * (1 - bodyFatPercentage / 100) in
  let bmr := 370 + (21.6 * leanBodyMass) in
  let baseCalories := bmr * ACTIVITY_FACTORS data.(exerciseLevel) in
  let baseProtein := data.(weight) * EXERCISE_MULTIPLIERS data.(exerciseLevel) in
  let goalRestrictions := getAllowedGoals bodyFatPercentage data.(gender) in
  match getBodyFatCategory bodyFatPercentage data.(gender) with
  | None => None
  | Some entry =>
      Some {| formData := data;
              baseResults := Some {|
                bodyFatPercentage := bodyFatPercentage;
                bodyFatCategory := entry.(category);
                leanBodyMass := leanBodyMass;
                baseCalories := baseCalories;
                baseProtein := baseProtein;
                allowedGoals := goalRestrictions.(allowed);
                restrictionMessage := goalRestrictions.(message) |};
              goalResults := None;
              selectedGoal := "" |}
  end.

End Calculator.

(** [calculateGoalResults goal]: nothing happens while [baseResults] is
    [null]; otherwise [goalResults] and [selectedGoal] are written.  The
    argument is one of the five keys of [GOAL_ADJUSTMENTS]: the only call
    site passes the key of one of the five goal buttons. *)
Definition calculateGoalResults (goal : GoalKey) (s : State) : State :=
  match s.(baseResults) with
  | None => s
  | Some base =>
      let goalAdjustment := GOAL_ADJUSTMENTS goal in
      let revisedCalorieTarget := base.(baseCalories) * goalAdjustment.(calorie) in
      let revisedProteinTarget := base.(baseProtein) * goalAdjustment.(protein) in
      {| formData := s.(formData);
         baseResults := s.(baseResults);
         goalResults := Some {| goal := goal;
                                revisedCalorieTarget := revisedCalorieTarget;
                                revisedProteinTarget := revisedProteinTarget |};
         selectedGoal := goalKeyString goal |}
  end.

(** [handleInputChange field value]: one field of [formData] replaced. *)
Inductive FieldChange :=
| set_gender (v : Gender)
| set_age (v : float)
| set_weight (v : float)
| set_height (v : float)
| set_neck (v : float)
| set_waist (v : float)
| set_hip (v : float)
| set_exerciseLevel (v : ExerciseLevel).

Definition updateField (c : FieldChange) (prev : FormData) : FormData :=
  match c with
  | set_gender v =>
      {| gender := v; age := prev.(age); weight := prev.(weight);
         height := prev.(height); neck := prev.(neck); waist := prev.(waist);
         hip := prev.(hip); exerciseLevel := prev.(exerciseLevel) |}
  | set_age v =>
      {| gender := prev.(gender); age := v; weight := prev.(weight);
         height := prev.(height); neck := prev.(neck); waist := prev.(waist);
         hip := prev.(hip); exerciseLevel := prev.(exerciseLevel) |}
  | set_weight v =>
      {| gender := prev.(gender); age := prev.(age); weight := v;
         height := prev.(height); neck := prev.(neck); waist := prev.(waist);
         hip := prev.(hip); exerciseLevel := prev.(exerciseLevel) |}
  | set_height v =>
      {| gender := prev.(gender); age := prev.(age); weight := prev.(weight);
         height := v; neck := prev.(neck); waist := prev.(waist);
         hip := prev.(hip); exerciseLevel := prev.(exerciseLevel) |}
  | set_neck v =>
      {| gender := prev.(gender); age := prev.(age); weight := prev.(weight);
         height := prev.(height); neck := v; waist := prev.(waist);
         hip := prev.(hip); exerciseLevel := prev.(exerciseLevel) |}
  | set_waist v =>
      {| gender := prev.(gender); age := prev.(age); weight := prev.(weight);
         height := prev.(height); neck := prev.(neck); waist := v;
         hip := prev.(hip); exerciseLevel := prev.(exerciseLevel) |}
  | set_hip v =>
      {| gender := prev.(gender); age := prev.(age); weight := prev.(weight);
         height := prev.(height); neck := prev.(neck); waist := prev.(waist);
         hip := v; exerciseLevel := prev.(exerciseLevel) |}
  | set_exerciseLevel v =>
      {| gender := prev.(gender); age := prev.(age); weight := prev.(weight);
         height := prev.(height); neck := prev.(neck); waist := prev.(waist);
         hip := prev.(hip); exerciseLevel := v |}
  end.

Definition handleInputChange (c : FieldChange) (s : State) : State :=
  {| formData := updateField c s.(formData);
     baseResults := s.(baseResults);
     goalResults := s.(goalResults);
     selectedGoal := s.(selectedGoal) |}.

(** ** Events and runs of the component *)

Inductive Event :=
| InputChange (c : FieldChange)
| ClickCalculate
| ClickGoal (goal : GoalKey).

Definition isCalculate (e : Event) : bool :=
  match e with ClickCalculate => true | _ => false end.

Definition isInputChange (e : Event) : bool :=
  match e with InputChange _ => true | _ => false end.

Section Runs.

Context {M : JSMath}.

(** One handler call.  A handler that throws leaves the state as it was. *)
Definition step (s : State) (e : Event) : State :=
  match e with
  | InputChange c => handleInputChange c s
  | ClickCalculate =>
      match calculateBaseStats s with
      | Some s' => s'
      | None => s
      end
  | ClickGoal goal => calculateGoalResults goal s
  end.

Definition run (s : State) (events : list Event) : State :=
  fold_left step events s.

End Runs.

(** ** Specification-side vocabulary *)

(** The position of a category name in a gender's table: the ordering
    Excellent < Good < Average < Above Average < Obese. *)
Fixpoint indexOfCategory (c : string) (l : list CategoryEntry) : nat :=
  match l with
  | [] => 0
  | e :: l' => if String.eqb c e.(category) then 0 else S (indexOfCategory c l')
  end.

Definition categoryRank (g : Gender) (c : string) : nat :=
  indexOfCategory c (BODY_FAT_CATEGORIES g).

(** The argument of the first logarithm of the body-fat formula. *)
Definition logArgument (data : FormData) : float :=
  match data.(gender) with
  | male => data.(waist) / 2.54 - data.(neck) / 2.54
  | female => data.(waist) / 2.54 + data.(hip) / 2.54 - data.(neck) / 2.54
  end.

(** The second term of the formula, the one with the height. *)
Definition heightTerm {M : JSMath} (data : FormData) : float :=
  match data.(gender) with
  | male => 70.041 * Math_log10 (data.(height) / 2.54)
  | female => 97.684 * Math_log10 (data.(height) / 2.54)
  end.

(** The three goal sets of [getAllowedGoals]. *)
Definition onlyFatLoss : list string := ["fat-loss"].
Definition allButWeightGain : list string :=
  ["maintenance"; "fat-loss"; "muscle-gain"; "recomposition"].
Definition allGoals : list string :=
  ["maintenance"; "fat-loss"; "muscle-gain"; "weight-gain"; "recomposition"].

(** Every value computed on the way to the stored body fat, in the order
    the source computes them: the four conversions, the subterms of the
    formula, the formula's value, and the two steps of the clamp. *)
Definition bodyFatIntermediates {M : JSMath} (data : FormData) : list float :=
  let waistInches := data.(waist) / 2.54 in
  let neckInches := data.(neck) / 2.54 in
  let heightInches := data.(height) / 2.54 in
  let hipInches := data.(hip) / 2.54 in
  ([waistInches; neckInches; heightInches; hipInches]
   ++ match data.(gender) with
      | male =>
          [ waistInches - neckInches;
            Math_log10 (waistInches - neckInches);
            86.010 * Math_log10 (waistInches - neckInches);
            Math_log10 heightInches;
            70.041 * Math_log10 heightInches;
            86.010 * Math_log10 (waistInches - neckInches)
            - 70.041 * Math_log10 heightInches ]
      | female =>
          [ waistInches + hipInches;
            waistInches + hipInches - neckInches;
            Math_log10 (waistInches + hipInches - neckInches);
            163.205 * Math_log10 (waistInches + hipInches - neckInches);
            Math_log10 heightInches;
            97.684 * Math_log10 heightInches;
            163.205 * Math_log10 (waistInches + hipInches - neckInches)
            - 97.684 * Math_log10 heightInches ]
      end
   ++ [ calculateBodyFat data;
        Math_min 50 (calculateBodyFat data);
        Math_max 0 (Math_min 50 (calculateBodyFat data)) ])%list.

(** A base value of normal magnitude: between 2^-1021 and 2^1021 in
    absolute value, so neither the product by a goal multiplier nor the
    quotient leaves the normal range of binary64. *)
Definition normalMagnitude (b : float) : bool :=
  (0x1p-1021 <=? abs b) && (abs b <=? 0x1p+1021).

(** Equal to within one unit in the last place: the value itself or one of
    its two neighbours in binary64. *)
Definition withinOneUlp (x c : float) : Prop :=
  x = next_down c \/ x = c \/ x = next_up c.

(** The clamp of [calculateBaseStats]. *)
Definition clamp_0_50 (x : float) : float := Math_max 0 (Math_min 50 x).

(** Two binary64 values with different specification values differ. *)
Ltac float_neq :=
  let H := fresh in
  intros H; apply (f_equal Prim2SF) in H; vm_compute in H; discriminate H.

(** ** What the page renders from the state ([src/app/page.tsx], lines 183-203 and 506-677) *)

Definition getCategoryColor (category : string) : string :=
  if String.eqb category "Excellent" then "text-green-700 bg-green-50 border-green-200"
  else if String.eqb category "Good" then "text-blue-700 bg-blue-50 border-blue-200"
  else if String.eqb category "Average" then "text-yellow-700 bg-yellow-50 border-yellow-200"
  else if String.eqb category "Above Average" then "text-orange-700 bg-orange-50 border-orange-200"
  else if String.eqb category "Obese" then "text-red-700 bg-red-50 border-red-200"
  else "text-gray-700 bg-gray-50 border-gray-200".

Definition getGoalLabel (goal : string) : string :=
  if String.eqb goal "maintenance" then "Maintenance"
  else if String.eqb goal "fat-loss" then "Fat Loss"
  else if String.eqb goal "muscle-gain" then "Muscle Gain"
  else if String.eqb goal "weight-gain" then "Weight Gain"
  else if String.eqb goal "recomposition" then "Body Recomposition"
  else goal.

(** The array of goal buttons (lines 560-566).  The [emoji] field, a glyph
    that is only drawn, is left out. *)
Module GoalOption.
Record t := { key : string; label : string; desc : string; color : string }.
End GoalOption.

Definition goalOptions : list GoalOption.t :=
  [ {| GoalOption.key := "maintenance"; GoalOption.label := "Maintenance";
       GoalOption.desc := "Maintain current weight and composition";
       GoalOption.color := "blue" |};
    {| GoalOption.key := "fat-loss"; GoalOption.label := "Fat Loss";
       GoalOption.desc := "Reduce body fat while preserving muscle";
       GoalOption.color := "red" |};
    {| GoalOption.key := "muscle-gain"; GoalOption.label := "Muscle Gain";
       GoalOption.desc := "Build muscle with minimal fat gain";
       GoalOption.color := "orange" |};
    {| GoalOption.key := "weight-gain"; GoalOption.label := "Weight Gain";
       GoalOption.desc := "Increase overall body weight";
       GoalOption.color := "green" |};
    {| GoalOption.key := "recomposition"; GoalOption.label := "Body Recomposition";
       GoalOption.desc := "Build muscle while losing fat";
       GoalOption.color := "purple" |} ].

(** [Array.prototype.includes] on an array of strings. *)
Definition includes (l : list string) (x : string) : bool :=
  existsb (String.eqb x) l.

(** Lines 567-568: a goal button is disabled unless [isAllowed]. *)
Definition isAllowed (base : BaseResults) (goalOption : GoalOption.t) : bool :=
  includes base.(allowedGoals) goalOption.(GoalOption.key).

Definition isSelected (s : State) (goalOption : GoalOption.t) : bool :=
  String.eqb s.(selectedGoal) goalOption.(GoalOption.key).

(** Lines 506, 508, 509 and 519: the tone of the restriction card, chosen
    by [allowedGoals.length]. *)
Definition restrictionCardClass (base : BaseResults) : string :=
  if Nat.eqb (List.length base.(allowedGoals)) 1 then "bg-red-50 border-red-200"
  else if Nat.eqb (List.length base.(allowedGoals)) 4 then "bg-orange-50 border-orange-200"
  else "bg-emerald-50 border-emerald-200".

Definition restrictionIconClass (base : BaseResults) : string :=
  if Nat.eqb (List.length base.(allowedGoals)) 1 then "bg-red-500"
  else if Nat.eqb (List.length base.(allowedGoals)) 4 then "bg-orange-500"
  else "bg-emerald-500".

Definition restrictionTextClass (base : BaseResults) : string :=
  if Nat.eqb (List.length base.(allowedGoals)) 1 then "text-red-700"
  else if Nat.eqb (List.length base.(allowedGoals)) 4 then "text-orange-700"
  else "text-emerald-700".

Definition restrictionIconIsCheck (base : BaseResults) : bool :=
  Nat.eqb (List.length base.(allowedGoals)) 5.

(** Lines 655 and 676: the sign shown before the difference to the base
    value, [target > base ? '+' : '']. *)
Definition deltaPrefix (target base : float) : string :=
  if base <? target then "+" else "".

(** Which handler the page lets the user call in a state: the hip input is
    rendered for a female only (line 387), the goal buttons only when
    [baseResults] is set (line 544), and a goal button is disabled unless
    its key is in [allowedGoals] (line 573). *)
Definition enabled (s : State) (e : Event) : bool :=
  match e with
  | InputChange (set_hip _) => is_female s.(formData).(gender)
  | InputChange _ => true
  | ClickCalculate => true
  | ClickGoal goal =>
      match s.(baseResults) with
      | None => false
      | Some base => includes base.(allowedGoals) (goalKeyString goal)
      end
  end.

Section EnabledRuns.

Context {M : JSMath}.

(** A run in which every event was enabled when it happened. *)
Fixpoint enabledRun (s : State) (events : list Event) : bool :=
  match events with
  | [] => true
  | e :: rest => enabled s e && enabledRun (step s e) rest
  end.

End EnabledRuns.

(** A base result as [calculateBaseStats] builds it: category, goals and
    message come from the stored body fat and one gender. *)
Definition builtByGate (b : BaseResults) : Prop :=
  exists g entry,
    getBodyFatCategory b.(bodyFatPercentage) g = Some entry
    /\ b.(bodyFatCategory) = entry.(category)
    /\ b.(allowedGoals) = (getAllowedGoals b.(bodyFatPercentage) g).(allowed)
    /\ b.(restrictionMessage) = (getAllowedGoals b.(bodyFatPercentage) g).(message).

(** The first term of the formula, the one with the circumferences. *)
Definition circumferenceTerm {M : JSMath} (data : FormData) : float :=
  match data.(gender) with
  | male => 86.010 * Math_log10 (logArgument data)
  | female => 163.205 * Math_log10 (logArgument data)
  end.

(** ** General lemmas *)

Lemma getBodyFatCategory_cascade (bodyFat : float) (g : Gender) :
  option_map category (getBodyFatCategory bodyFat g) =
  Some match g with
       | male =>
           if bodyFat <=? 13 then "Excellent"
           else if bodyFat <=? 16 then "Good"
           else if bodyFat <=? 20 then "Average"
           else if bodyFat <=? 22 then "Above Average"
           else "Obese"
       | female =>
           if bodyFat <=? 16 then "Excellent"
           else if bodyFat <=? 19 then "Good"
           else if bodyFat <=? 28 then "Average"
           else if bodyFat <=? 33 then "Above Average"
           else "Obese"
       end.
Proof.
  unfold getBodyFatCategory.
  destruct g; cbn -[leb];
    repeat match goal with
           | |- context [bodyFat <=? ?t] => destruct (bodyFat <=? t); cbn -[leb]
           end; reflexivity.
Qed.

Lemma getBodyFatCategory_total (bodyFat : float) (g : Gender) :
  exists entry, getBodyFatCategory bodyFat g = Some entry.
Proof.
  pose proof (getBodyFatCategory_cascade bodyFat g) as H.
  destruct (getBodyFatCategory bodyFat g) as [e|]; [eauto | discriminate].
Qed.

Section CalculatorFacts.

Context {M : JSMath}.

(** [calculateBaseStats] never throws, and this is the state it leaves. *)
Lemma calculateBaseStats_total (s : State) :
  exists entry,
    getBodyFatCategory (clamp_0_50 (calculateBodyFat s.(formData)))
      s.(formData).(gender) = Some entry /\
    calculateBaseStats s =
    Some {| formData := s.(formData);
            baseResults := Some {|
              bodyFatPercentage := clamp_0_50 (calculateBodyFat s.(formData));
              bodyFatCategory := entry.(category);
              leanBodyMass :=
                s.(formData).(weight)
                * (1 - clamp_0_50 (calculateBodyFat s.(formData)) / 100);
              baseCalories :=
                (370 + 21.6 * (s.(formData).(weight)
                  * (1 - clamp_0_50 (calculateBodyFat s.(formData)) / 100)))
                * ACTIVITY_FACTORS s.(formData).(exerciseLevel);
              baseProtein :=
                s.(formData).(weight)
                * EXERCISE_MULTIPLIERS s.(formData).(exerciseLevel);
              allowedGoals :=
                (getAllowedGoals (clamp_0_50 (calculateBodyFat s.(formData)))
                   s.(formData).(gender)).(allowed);
              restrictionMessage :=
                (getAllowedGoals (clamp_0_50 (calculateBodyFat s.(formData)))
                   s.(formData).(gender)).(message) |};
            goalResults := None;
            selectedGoal := "" |}.
Proof.
  destruct (getBodyFatCategory_total
              (clamp_0_50 (calculateBodyFat s.(formData)))
              s.(formData).(gender)) as [entry He].
  exists entry. split; [exact He|].
  unfold calculateBaseStats. fold (clamp_0_50 (calculateBodyFat s.(formData))).
  rewrite He. reflexivity.
Qed.

End CalculatorFacts.

(** ** The body-fat formula *)

Section BodyFat.

Context {M : JSMath}.

(** C3: [calculateBodyFat] divides neck, waist, hip and height by 2.54 and
    returns [86.010 * log10 (waist_in - neck_in) - 70.041 * log10 height_in
    + 36.76] for a male and [163.205 * log10 (waist_in + hip_in - neck_in)
    - 97.684 * log10 height_in - 78.387] for a female, the operations being
    those of binary64, grouped from the left. *)
Theorem calculateBodyFat_formula (data : FormData) :
  let waist_in := data.(waist) / 2.54 in
  let neck_in := data.(neck) / 2.54 in
  let hip_in := data.(hip) / 2.54 in
  let height_in := data.(height) / 2.54 in
  calculateBodyFat data =
  match data.(gender) with
  | male =>
      ((86.010 * Math_log10 (waist_in - neck_in))
       - (70.041 * Math_log10 height_in)) + 36.76
  | female =>
      ((163.205 * Math_log10 ((waist_in + hip_in) - neck_in))
       - (97.684 * Math_log10 height_in)) - 78.387
  end.
Proof.
  destruct data as [g a w h n wa hi l]. destruct g; reflexivity.
Qed.

(** The formula, read through [logArgument]. *)
Lemma calculateBodyFat_logArgument (data : FormData) :
  calculateBodyFat data =
  match data.(gender) with
  | male =>
      86.010 * Math_log10 (logArgument data)
      - 70.041 * Math_log10 (data.(height) / 2.54) + 36.76
  | female =>
      163.205 * Math_log10 (logArgument data)
      - 97.684 * Math_log10 (data.(height) / 2.54) - 78.387
  end.
Proof.
  destruct data as [g a w h n wa hi l]. destruct g; reflexivity.
Qed.

End BodyFat.

(** ** The category classifier *)

(** C5: the classifier returns the first entry of the gender's table whose
    [max] the value is [<=] (male 13, 16, 20, 22, else Obese; female 16, 19,
    28, 33, else Obese); every entry before the returned one was exceeded,
    and the value equal to an entry's [max] is classified as that entry (the
    lower category). *)
Theorem getBodyFatCategory_first_match (bodyFat : float) (g : Gender) :
  option_map category (getBodyFatCategory bodyFat g) =
    Some match g with
         | male =>
             if bodyFat <=? 13 then "Excellent"
             else if bodyFat <=? 16 then "Good"
             else if bodyFat <=? 20 then "Average"
             else if bodyFat <=? 22 then "Above Average"
             else "Obese"
         | female =>
             if bodyFat <=? 16 then "Excellent"
             else if bodyFat <=? 19 then "Good"
             else if bodyFat <=? 28 then "Average"
             else if bodyFat <=? 33 then "Above Average"
             else "Obese"
         end
  /\ (exists entry before after,
        getBodyFatCategory bodyFat g = Some entry
        /\ BODY_FAT_CATEGORIES g = (before ++ entry :: after)%list
        /\ Forall (fun e => (bodyFat <=? e.(max)) = false) before
        /\ ((bodyFat <=? entry.(max)) = true
            \/ (after = [] /\ entry.(category) = "Obese")))
  /\ Forall (fun e => getBodyFatCategory e.(max) g = Some e)
       (BODY_FAT_CATEGORIES g).
Proof.
  split; [apply getBodyFatCategory_cascade|]. split.
  - unfold getBodyFatCategory.
    destruct g; cbn -[leb].
    + destruct (bodyFat <=? 13) eqn:E1;
        [eexists _, [], _; cbn; repeat split; eauto|].
      destruct (bodyFat <=? 16) eqn:E2;
        [eexists _, [_], _; cbn; repeat split; eauto|].
      destruct (bodyFat <=? 20) eqn:E3;
        [eexists _, [_; _], _; cbn; repeat split; eauto|].
      destruct (bodyFat <=? 22) eqn:E4;
        [eexists _, [_; _; _], _; cbn; repeat split; eauto|].
      destruct (bodyFat <=? infinity) eqn:E5;
        eexists _, [_; _; _; _], _; cbn; repeat split; eauto 10.
    + destruct (bodyFat <=? 16) eqn:E1;
        [eexists _, [], _; cbn; repeat split; eauto|].
      destruct (bodyFat <=? 19) eqn:E2;
        [eexists _, [_], _; cbn; repeat split; eauto|].
      destruct (bodyFat <=? 28) eqn:E3;
        [eexists _, [_; _], _; cbn; repeat split; eauto|].
      destruct (bodyFat <=? 33) eqn:E4;
        [eexists _, [_; _; _], _; cbn; repeat split; eauto|].
      destruct (bodyFat <=? infinity) eqn:E5;
        eexists _, [_; _; _; _], _; cbn; repeat split; eauto 10.
  - destruct g; repeat constructor.
Qed.

(** C8: for a fixed gender and body-fat values [x <= y], the category of
    [y] is not before the category of [x] in the ordering Excellent < Good <
    Average < Above Average < Obese. *)
Theorem getBodyFatCategory_monotone (g : Gender) (x y : float) :
  (x <=? y) = true ->
  exists cx cy,
    getBodyFatCategory x g = Some cx /\
    getBodyFatCategory y g = Some cy /\
    (categoryRank g cx.(category) <= categoryRank g cy.(category))%nat.
Proof.
  intros Hxy.
  pose proof (getBodyFatCategory_cascade x g) as Hx.
  pose proof (getBodyFatCategory_cascade y g) as Hy.
  destruct (getBodyFatCategory x g) as [cx|]; [|discriminate].
  destruct (getBodyFatCategory y g) as [cy|]; [|discriminate].
  exists cx, cy. split; [reflexivity|]. split; [reflexivity|].
  cbn in Hx, Hy. injection Hx as ->. injection Hy as ->.
  assert (Ht : forall t, (y <=? t) = true -> (x <=? t) = true)
    by (intros t; apply FloatFacts.leb_trans; exact Hxy).
  destruct g;
    repeat match goal with
           | |- context [y <=? ?t] =>
               let E := fresh "E" in
               destruct (y <=? t) eqn:E; [rewrite (Ht t E)|]
           end;
    repeat match goal with
           | |- context [x <=? ?t] => destruct (x <=? t)
           end;
    vm_compute; lia.
Qed.

Lemma getBodyFatCategory_monotone_witness :
  exists cx cy,
    getBodyFatCategory 15 male = Some cx /\
    getBodyFatCategory 21 male = Some cy /\
    (categoryRank male cx.(category) <= categoryRank male cy.(category))%nat.
Proof.
  apply (getBodyFatCategory_monotone male 15 21). reflexivity.
Defined.

(** ** The goal gate *)

Lemma isObese_excludes_isAboveAverage (bodyFat : float) (g : Gender) :
  isObese bodyFat g = true -> isAboveAverage bodyFat g = false.
Proof.
  unfold isObese, isAboveAverage.
  destruct g; cbn -[ltb leb]; rewrite ?orb_false_r; intros H;
    rewrite (FloatFacts.ltb_not_leb _ _ H); apply andb_false_r.
Qed.

(** C4: the goals and the message depend on gender and body fat through
    three bands that exclude one another: above 22 (male) or 33 (female)
    only fat loss; in (20, 22] (male) or (28, 33] (female) every goal but
    weight gain; otherwise all five.  The returned set is always one of
    these three lists. *)
Theorem getAllowedGoals_bands (bodyFat : float) (g : Gender) :
  let obese := match g with male => 22 <? bodyFat | female => 33 <? bodyFat end in
  let aboveAverage :=
    match g with
    | male => (20 <? bodyFat) && (bodyFat <=? 22)
    | female => (28 <? bodyFat) && (bodyFat <=? 33)
    end in
  obese && aboveAverage = false
  /\ getAllowedGoals bodyFat g =
     (if obese then
        {| allowed := onlyFatLoss;
           message := "Due to elevated body fat levels, only Fat Loss goal is recommended for health." |}
      else if aboveAverage then
        {| allowed := allButWeightGain;
           message := "Weight Gain is not recommended at current body fat levels." |}
      else
        {| allowed := allGoals;
           message := "All goals are available based on your current body composition." |})
  /\ In (getAllowedGoals bodyFat g).(allowed)
       [onlyFatLoss; allButWeightGain; allGoals]
  /\ onlyFatLoss = [goalKeyString fat_loss]
  /\ allButWeightGain =
     map goalKeyString [maintenance; fat_loss; muscle_gain; recomposition]
  /\ ~ In (goalKeyString weight_gain) allButWeightGain
  /\ allGoals =
     map goalKeyString
       [maintenance; fat_loss; muscle_gain; weight_gain; recomposition].
Proof.
  cbv zeta. split; [|split; [|split]].
  - pose proof (isObese_excludes_isAboveAverage bodyFat g) as H.
    unfold isObese, isAboveAverage in H.
    destruct g; cbn -[ltb leb] in H; rewrite ?orb_false_r in H.
    + destruct (22 <? bodyFat); [rewrite H|]; reflexivity.
    + destruct (33 <? bodyFat); [rewrite H|]; reflexivity.
  - unfold getAllowedGoals, isObese, isAboveAverage.
    destruct g; cbn -[ltb leb]; rewrite ?orb_false_r; reflexivity.
  - unfold getAllowedGoals.
    destruct (isObese bodyFat g); [|destruct (isAboveAverage bodyFat g)];
      cbn; auto.
  - repeat split; try reflexivity.
    cbn. intros [H|[H|[H|[H|[]]]]]; discriminate H.
Qed.

(** ** The baseline targets *)

Section Baseline.

Context {M : JSMath}.

(** C6: the baseline is [leanBodyMass = weight * (1 - bodyFat / 100)],
    [baseCalories = (370 + 21.6 * leanBodyMass) * ACTIVITY_FACTORS level] and
    [baseProtein = weight * EXERCISE_MULTIPLIERS level], with the calorie
    table 1.2, 1.375, 1.55, 1.725, 1.9 and the protein table 1.2, 1.5, 1.7,
    1.95, 2.2; the two tables agree at [sedentary] only. *)
Theorem calculateBaseStats_baseline (s : State) :
  exists s' b,
    calculateBaseStats s = Some s'
    /\ s'.(baseResults) = Some b
    /\ b.(bodyFatPercentage) = clamp_0_50 (calculateBodyFat s.(formData))
    /\ b.(leanBodyMass) =
       s.(formData).(weight) * (1 - b.(bodyFatPercentage) / 100)
    /\ b.(baseCalories) =
       (370 + 21.6 * b.(leanBodyMass))
       * ACTIVITY_FACTORS s.(formData).(exerciseLevel)
    /\ b.(baseProtein) =
       s.(formData).(weight) * EXERCISE_MULTIPLIERS s.(formData).(exerciseLevel)
    /\ map ACTIVITY_FACTORS [sedentary; x1_2; x3_5; daily; twice_daily]
       = [1.2; 1.375; 1.55; 1.725; 1.9]
    /\ map EXERCISE_MULTIPLIERS [sedentary; x1_2; x3_5; daily; twice_daily]
       = [1.2; 1.5; 1.7; 1.95; 2.2]
    /\ (forall l, ACTIVITY_FACTORS l = EXERCISE_MULTIPLIERS l <-> l = sedentary).
Proof.
  destruct (calculateBaseStats_total s) as [entry [_ Hs]].
  eexists _, _. split; [exact Hs|].
  cbn [baseResults bodyFatPercentage leanBodyMass baseCalories baseProtein].
  repeat (split; [reflexivity|]).
  intros l. split.
  - destruct l; cbn; [reflexivity| | | |]; float_neq.
  - intros ->. reflexivity.
Qed.

End Baseline.

(** ** The goal adjustment *)

Lemma normalMagnitude_spec (b : float) :
  normalMagnitude b = true ->
  exists s m e,
    Prim2SF b = S754_finite s m e
    /\ (2 ^ 52 <= Z.pos m < 2 ^ 53)%Z /\ (-1073 <= e <= 969)%Z.
Proof.
  unfold normalMagnitude. intros H. apply andb_prop in H.
  destruct H as [Hlo Hhi].
  rewrite leb_spec, abs_spec in Hlo, Hhi.
  pose proof (Prim2SF_valid b) as Hv.
  change (Prim2SF 0x1p-1021)
    with (S754_finite false 4503599627370496 (-1073)) in Hlo.
  change (Prim2SF 0x1p+1021)
    with (S754_finite false 4503599627370496 969) in Hhi.
  destruct (Prim2SF b) as [s|s| |s m e]; try discriminate.
  exists s, m, e. split; [reflexivity|].
  cbn [SFabs] in Hlo, Hhi. unfold SFleb, SFcompare in Hlo, Hhi.
  assert (He : (-1073 <= e <= 969)%Z).
  { destruct (Z.compare_spec (-1073) e), (Z.compare_spec e 969);
      try discriminate; lia. }
  split; [|exact He].
  cbn [valid_binary] in Hv. unfold bounded, canonical_mantissa in Hv.
  apply andb_prop in Hv. destruct Hv as [Hc _]. apply Z.eqb_eq in Hc.
  unfold fexp, SpecFloat.emin in Hc.
  change (3 - emax - prec)%Z with (-1074)%Z in Hc.
  change prec with 53%Z in Hc.
  assert (Hd : Z.pos (digits2_pos m) = 53%Z) by lia.
  pose proof (Rounding.digits2_pos_bounds m) as Hb. rewrite Hd in Hb. exact Hb.
Qed.

Lemma normalMagnitude_finite_nonzero (b : float) :
  normalMagnitude b = true -> is_finite b = true /\ (b =? 0) = false.
Proof.
  intros H. destruct (normalMagnitude_spec b H) as [s [m [e [E _]]]].
  unfold is_finite, is_nan, is_infinity.
  rewrite !FloatAxioms.eqb_spec, abs_spec, E.
  change (Prim2SF 0) with (S754_zero false).
  change (Prim2SF infinity) with (S754_infinity false).
  unfold SFeqb. rewrite FloatFacts.SFcompare_refl by discriminate.
  cbn. destruct s; split; reflexivity.
Qed.

(** The quotient [(b * c) / b] for a constant [c] with mantissa [mc] and a
    base of normal magnitude: the mantissa that comes back is [mc - 1],
    [mc] or [mc + 1], at the exponent of [c]. *)
Lemma quotient_mantissa (b c : float) (mc : positive) (ec : Z) :
  Prim2SF c = S754_finite false mc ec ->
  (2 ^ 52 < Z.pos mc <= 2 ^ 53 - 2)%Z -> (-53 <= ec <= -52)%Z ->
  normalMagnitude b = true ->
  exists Q,
    Prim2SF (b * c / b) = S754_finite false Q ec
    /\ (Z.pos mc - 1 <= Z.pos Q <= Z.pos mc + 1)%Z.
Proof.
  intros Hc Hmc Hec Hb.
  destruct (normalMagnitude_spec b Hb) as [s [m [e [E [Hm He]]]]].
  rewrite div_spec, mul_spec, E, Hc. unfold SF64div, SF64mul.
  destruct (Rounding.SFmul_normal s m mc e ec Hm He Hmc Hec)
    as [mp [t [Emul [Hmp [Ht Hrel]]]]].
  rewrite Emul.
  apply (Rounding.SFdiv_normal s m mp mc e ec t Hm Hmp Hmc Hec Ht Hrel).
Qed.

Ltac quotient_within mc ec :=
  match goal with
  | Hb : normalMagnitude ?b = true |- withinOneUlp (?b * ?c / ?b) ?c =>
      let Q := fresh "Q" in
      let EQ := fresh "EQ" in
      let HQ := fresh "HQ" in
      destruct (quotient_mantissa b c mc ec eq_refl ltac:(lia) ltac:(lia) Hb)
        as [Q [EQ HQ]];
      assert (Q = Pos.pred mc \/ Q = mc \/ Q = Pos.succ mc) as [-> | [-> | ->]]
        by lia;
      [left | right; left | right; right];
      apply Prim2SF_inj; rewrite EQ; reflexivity
  end.

Lemma quotient_0_8 (b : float) :
  normalMagnitude b = true -> withinOneUlp (b * 0.8 / b) 0.8.
Proof. intros Hb. quotient_within 7205759403792794%positive (-53)%Z. Qed.

Lemma quotient_1_1 (b : float) :
  normalMagnitude b = true -> withinOneUlp (b * 1.1 / b) 1.1.
Proof. intros Hb. quotient_within 4953959590107546%positive (-52)%Z. Qed.

Lemma quotient_1_2 (b : float) :
  normalMagnitude b = true -> withinOneUlp (b * 1.2 / b) 1.2.
Proof. intros Hb. quotient_within 5404319552844595%positive (-52)%Z. Qed.

Lemma quotient_1_25 (b : float) :
  normalMagnitude b = true -> withinOneUlp (b * 1.25 / b) 1.25.
Proof. intros Hb. quotient_within 5629499534213120%positive (-52)%Z. Qed.

(** With the multiplier 1.0 the quotient is exactly 1, for every finite
    base that is not zero. *)
Lemma quotient_1_0 (b : float) :
  is_finite b = true -> (b =? 0) = false -> b * 1.0 / b = 1.0.
Proof.
  intros Hf Hz. rewrite FloatFacts.mul_one_r. apply Rounding.div_self; assumption.
Qed.

(** The quotient for each multiplier of the table. *)
Lemma quotient_of_multiplier (b c : float) :
  In c [0.8; 1.0; 1.1; 1.2; 1.25] ->
  normalMagnitude b = true -> withinOneUlp (b * c / b) c.
Proof.
  intros Hin Hb. cbn in Hin.
  destruct Hin as [<- | [<- | [<- | [<- | [<- | []]]]]].
  - apply quotient_0_8, Hb.
  - right; left.
    destruct (normalMagnitude_finite_nonzero b Hb) as [Hf Hz].
    apply quotient_1_0; assumption.
  - apply quotient_1_1, Hb.
  - apply quotient_1_2, Hb.
  - apply quotient_1_25, Hb.
Qed.

(** C7 (as the code has it): with a base result present,
    [calculateGoalResults] stores [baseCalories * c] and [baseProtein * p]
    for the pair [(c, p)] of the goal: maintenance (1.00, 1.00), fat loss
    (0.80, 1.20), muscle gain (1.10, 1.25), weight gain (1.20, 1.20),
    recomposition (1.00, 1.25).  Each target depends on its own base value
    only.  When the base value is of normal magnitude, the quotient
    target / base is the goal's multiplier to within one unit in the last
    place; when the multiplier is 1.00 and the base value is finite and not
    zero, the quotient is exactly 1. *)
Theorem calculateGoalResults_targets (s : State) (b : BaseResults) (g : GoalKey) :
  s.(baseResults) = Some b ->
  let multipliers :=
    match g with
    | maintenance => (1.00, 1.00)
    | fat_loss => (0.80, 1.20)
    | muscle_gain => (1.10, 1.25)
    | weight_gain => (1.20, 1.20)
    | recomposition => (1.00, 1.25)
    end in
  exists r,
    (calculateGoalResults g s).(goalResults) = Some r
    /\ r.(goal) = g
    /\ r.(revisedCalorieTarget) = b.(baseCalories) * fst multipliers
    /\ r.(revisedProteinTarget) = b.(baseProtein) * snd multipliers
    /\ (forall s2 b2 r2,
          s2.(baseResults) = Some b2 ->
          (calculateGoalResults g s2).(goalResults) = Some r2 ->
          (b2.(baseCalories) = b.(baseCalories) ->
           r2.(revisedCalorieTarget) = r.(revisedCalorieTarget))
          /\ (b2.(baseProtein) = b.(baseProtein) ->
              r2.(revisedProteinTarget) = r.(revisedProteinTarget)))
    /\ (normalMagnitude b.(baseCalories) = true ->
        withinOneUlp (r.(revisedCalorieTarget) / b.(baseCalories))
          (fst multipliers))
    /\ (normalMagnitude b.(baseProtein) = true ->
        withinOneUlp (r.(revisedProteinTarget) / b.(baseProtein))
          (snd multipliers))
    /\ (fst multipliers = 1.00 ->
        is_finite b.(baseCalories) = true -> (b.(baseCalories) =? 0) = false ->
        r.(revisedCalorieTarget) / b.(baseCalories) = 1.00)
    /\ (snd multipliers = 1.00 ->
        is_finite b.(baseProtein) = true -> (b.(baseProtein) =? 0) = false ->
        r.(revisedProteinTarget) / b.(baseProtein) = 1.00).
Proof.
  intros Hb multipliers. unfold calculateGoalResults. rewrite Hb.
  eexists. split; [reflexivity|]. cbn [goal revisedCalorieTarget revisedProteinTarget].
  split; [reflexivity|].
  split; [destruct g; reflexivity|].
  split; [destruct g; reflexivity|].
  split.
  { intros s2 b2 r2 Hb2. rewrite Hb2. intros [= <-].
    cbn [revisedCalorieTarget revisedProteinTarget].
    split; intros ->; reflexivity. }
  split.
  { intros Hn. replace (calorie (GOAL_ADJUSTMENTS g)) with (fst multipliers)
      by (destruct g; reflexivity).
    apply quotient_of_multiplier; [|exact Hn].
    destruct g; cbn; auto 6. }
  split.
  { intros Hn. replace (protein (GOAL_ADJUSTMENTS g)) with (snd multipliers)
      by (destruct g; reflexivity).
    apply quotient_of_multiplier; [|exact Hn].
    destruct g; cbn; auto 6. }
  split.
  - intros H1 Hf Hz.
    replace (calorie (GOAL_ADJUSTMENTS g)) with (fst multipliers)
      by (destruct g; reflexivity).
    rewrite H1. apply quotient_1_0; assumption.
  - intros H1 Hf Hz.
    replace (protein (GOAL_ADJUSTMENTS g)) with (snd multipliers)
      by (destruct g; reflexivity).
    rewrite H1. apply quotient_1_0; assumption.
Qed.

Lemma calculateGoalResults_targets_witness :
  exists r,
    (calculateGoalResults fat_loss
       (run initialState [ClickCalculate])).(goalResults) = Some r
    /\ r.(goal) = fat_loss
    /\ r.(revisedCalorieTarget) = 1979.2837587567828 * 0.80
    /\ r.(revisedProteinTarget) = 84 * 1.20
    /\ withinOneUlp (r.(revisedCalorieTarget) / 1979.2837587567828) 0.80
    /\ withinOneUlp (r.(revisedProteinTarget) / 84) 1.20.
Proof.
  assert (Hb : (run initialState [ClickCalculate]).(baseResults) =
               Some {| bodyFatPercentage := 15.383390721076786;
                       bodyFatCategory := "Good";
                       leanBodyMass := 59.231626495246253;
                       baseCalories := 1979.2837587567828;
                       baseProtein := 84;
                       allowedGoals := allGoals;
                       restrictionMessage :=
                         "All goals are available based on your current body composition." |})
    by (vm_compute; reflexivity).
  destruct (calculateGoalResults_targets _ _ fat_loss Hb)
    as [r [H1 [H2 [H3 [H4 [_ [H5 [H6 _]]]]]]]].
  exists r. repeat split; try assumption.
  - apply H5. reflexivity.
  - apply H6. reflexivity.
Defined.

(** C7, where the claim fails: the quotient target / base is not the goal's
    multiplier for every base result.  After clearing the weight field
    (weight 0) the protein base is 0 and the quotient is NaN; with the
    smallest positive weight (5e-324) the protein base is subnormal, the
    multiplication by 1.2 is lost in the rounding and the quotient is 1.
    Neither is within one unit in the last place of 1.2. *)
Lemma calculateGoalResults_quotient_counterexample :
  (exists b r,
     (run initialState
        [InputChange (set_weight 0); ClickCalculate; ClickGoal fat_loss]).(baseResults)
     = Some b
     /\ (run initialState
           [InputChange (set_weight 0); ClickCalculate; ClickGoal fat_loss]).(goalResults)
        = Some r
     /\ b.(baseProtein) = 0
     /\ r.(revisedProteinTarget) / b.(baseProtein) = nan
     /\ r.(revisedProteinTarget) / b.(baseProtein)
        <> (GOAL_ADJUSTMENTS fat_loss).(protein)
     /\ ~ withinOneUlp (r.(revisedProteinTarget) / b.(baseProtein))
            (GOAL_ADJUSTMENTS fat_loss).(protein))
  /\ (exists b r,
        (run initialState
           [InputChange (set_weight 5e-324); ClickCalculate; ClickGoal fat_loss]).(baseResults)
        = Some b
        /\ (run initialState
              [InputChange (set_weight 5e-324); ClickCalculate; ClickGoal fat_loss]).(goalResults)
           = Some r
        /\ b.(baseProtein) = 5e-324
        /\ r.(revisedProteinTarget) / b.(baseProtein) = 1
        /\ ~ withinOneUlp (r.(revisedProteinTarget) / b.(baseProtein))
               (GOAL_ADJUSTMENTS fat_loss).(protein)).
Proof.
  split.
  - eexists _, _. split; [vm_compute; reflexivity|].
    split; [vm_compute; reflexivity|].
    cbn [baseProtein revisedProteinTarget].
    split; [reflexivity|]. split; [reflexivity|]. split; [float_neq|].
    intros [H | [H | H]]; revert H; float_neq.
  - eexists _, _. split; [vm_compute; reflexivity|].
    split; [vm_compute; reflexivity|].
    cbn [baseProtein revisedProteinTarget].
    split; [reflexivity|]. split; [reflexivity|].
    intros [H | [H | H]]; revert H; float_neq.
Qed.

(** The bound of one unit in the last place is attained: with weight 48,
    sedentary and muscle gain, the protein quotient is the upper neighbour
    of 1.25. *)
Example quotient_one_ulp_off :
  exists b r,
    (run initialState
       [InputChange (set_weight 48); ClickCalculate; ClickGoal muscle_gain]).(baseResults)
    = Some b
    /\ (run initialState
          [InputChange (set_weight 48); ClickCalculate; ClickGoal muscle_gain]).(goalResults)
       = Some r
    /\ r.(revisedProteinTarget) / b.(baseProtein) = next_up 1.25
    /\ r.(revisedProteinTarget) / b.(baseProtein)
       <> (GOAL_ADJUSTMENTS muscle_gain).(protein).
Proof.
  eexists _, _. split; [vm_compute; reflexivity|].
  split; [vm_compute; reflexivity|].
  cbn [baseProtein revisedProteinTarget].
  split; [reflexivity|]. float_neq.
Qed.

(** ** The hip measurement of a male *)

Section Hip.

Context {M : JSMath}.

(** C9: two male inputs that differ in [hip] only give the same body fat
    and the same base results (body fat, category, lean mass, calories,
    protein, allowed goals, message). *)
Theorem male_hip_irrelevant (s1 s2 : State) :
  s1.(formData).(gender) = male ->
  s2.(formData).(gender) = male ->
  s1.(formData).(age) = s2.(formData).(age) ->
  s1.(formData).(weight) = s2.(formData).(weight) ->
  s1.(formData).(height) = s2.(formData).(height) ->
  s1.(formData).(neck) = s2.(formData).(neck) ->
  s1.(formData).(waist) = s2.(formData).(waist) ->
  s1.(formData).(exerciseLevel) = s2.(formData).(exerciseLevel) ->
  calculateBodyFat s1.(formData) = calculateBodyFat s2.(formData)
  /\ exists s1' s2' b,
       calculateBaseStats s1 = Some s1'
       /\ calculateBaseStats s2 = Some s2'
       /\ s1'.(baseResults) = Some b
       /\ s2'.(baseResults) = Some b.
Proof.
  intros G1 G2 Ha Hw Hh Hn Hwa Hl.
  assert (Hbf : calculateBodyFat s1.(formData) = calculateBodyFat s2.(formData)).
  { unfold calculateBodyFat. rewrite G1, G2, Hh, Hn, Hwa. reflexivity. }
  split; [exact Hbf|].
  destruct (calculateBaseStats_total s1) as [e1 [He1 H1]].
  destruct (calculateBaseStats_total s2) as [e2 [He2 H2]].
  rewrite Hbf, G1, G2 in *. rewrite He1 in He2. injection He2 as <-.
  rewrite Hw, Hl in H1.
  eexists _, _, _. split; [exact H1|]. split; [exact H2|].
  split; reflexivity.
Qed.

End Hip.

Lemma male_hip_irrelevant_witness :
  calculateBodyFat initialState.(formData)
  = calculateBodyFat (handleInputChange (set_hip 120) initialState).(formData)
  /\ exists s1' s2' b,
       calculateBaseStats initialState = Some s1'
       /\ calculateBaseStats (handleInputChange (set_hip 120) initialState) = Some s2'
       /\ s1'.(baseResults) = Some b
       /\ s2'.(baseResults) = Some b.
Proof.
  apply (male_hip_irrelevant initialState
           (handleInputChange (set_hip 120) initialState)); reflexivity.
Defined.

(** ** The clamp and the degenerate inputs *)

(** On a value that is not NaN the clamp does what its name says. *)
Lemma clamp_0_50_range (x : float) :
  is_nan x = false ->
  (0 <=? clamp_0_50 x) = true /\ (clamp_0_50 x <=? 50) = true.
Proof.
  intros Hx. unfold clamp_0_50, Math_min.
  change (is_nan 50) with false. rewrite Hx.
  change (is_pos_zero 50) with false. cbn [orb andb].
  destruct (x <? 50) eqn:E50.
  - unfold Math_max. change (is_nan 0) with false. rewrite Hx.
    change (is_neg_zero 0) with false. cbn [orb andb].
    destruct (0 <? x) eqn:E0.
    + split; [apply FloatFacts.ltb_leb; exact E0 | apply FloatFacts.ltb_leb; exact E50].
    + split; reflexivity.
  - split; reflexivity.
Qed.

(** NaN passes through the clamp: [Math.min] and [Math.max] return NaN as
    soon as one argument is NaN. *)
Lemma clamp_0_50_nan : clamp_0_50 nan = nan.
Proof. reflexivity. Qed.

Lemma clamp_0_50_neg_infinity : clamp_0_50 neg_infinity = 0.
Proof. reflexivity. Qed.

Section Degenerate.

Context {M : JSMath}.

Lemma calculateBodyFat_negative_argument (data : FormData) :
  (logArgument data <? 0) = true -> calculateBodyFat data = nan.
Proof.
  intros H. rewrite calculateBodyFat_logArgument.
  rewrite (log10_negative _ H).
  destruct data.(gender);
    rewrite FloatFacts.mul_nan_r, FloatFacts.sub_nan_l;
    [apply FloatFacts.add_nan_l | apply FloatFacts.sub_nan_l].
Qed.

Lemma calculateBodyFat_zero_argument (data : FormData) :
  (logArgument data =? 0) = true ->
  is_finite (heightTerm data) = true ->
  calculateBodyFat data = neg_infinity.
Proof.
  intros H Hf. rewrite calculateBodyFat_logArgument.
  rewrite (log10_zero _ H). unfold heightTerm in Hf.
  destruct data.(gender).
  - change (86.010 * neg_infinity) with neg_infinity.
    rewrite (FloatFacts.sub_neg_infinity_finite _ Hf). reflexivity.
  - change (163.205 * neg_infinity) with neg_infinity.
    rewrite (FloatFacts.sub_neg_infinity_finite _ Hf). reflexivity.
Qed.

(** C1 (as the code has it): when the argument of the logarithm is
    negative, the formula gives NaN; when it is exactly zero and the height
    term is finite, the formula gives -Infinity, no NaN arises, and the
    stored body-fat percentage is exactly 0. *)
Theorem degenerate_log_argument (s : State) :
  ((logArgument s.(formData) <? 0) = true ->
   calculateBodyFat s.(formData) = nan)
  /\ ((logArgument s.(formData) =? 0) = true ->
      is_finite (heightTerm s.(formData)) = true ->
      calculateBodyFat s.(formData) = neg_infinity
      /\ exists s' b,
           calculateBaseStats s = Some s'
           /\ s'.(baseResults) = Some b
           /\ b.(bodyFatPercentage) = 0).
Proof.
  split; [apply calculateBodyFat_negative_argument|].
  intros H Hf.
  pose proof (calculateBodyFat_zero_argument _ H Hf) as Hraw.
  split; [exact Hraw|].
  destruct (calculateBaseStats_total s) as [entry [_ Hs]].
  eexists _, _. split; [exact Hs|]. split; [reflexivity|].
  cbn [bodyFatPercentage]. rewrite Hraw. reflexivity.
Qed.

(** C2, at a failing input: a male with waist 30 cm and neck 70 cm (every
    field positive) gets NaN as body-fat percentage, whatever [Math.log10]
    returns on positive arguments; NaN is neither [>= 0] nor [<= 50], and
    the gate then allows all five goals. *)
Theorem clamp_misses_nan :
  let data := {| gender := male; age := 25; weight := 70; height := 175;
                 neck := 70; waist := 30; hip := 95;
                 exerciseLevel := sedentary |} in
  let s := {| formData := data; baseResults := None; goalResults := None;
              selectedGoal := "" |} in
  forallb (fun v => 0 <? v)
    [data.(age); data.(weight); data.(height); data.(neck); data.(waist);
     data.(hip)] = true
  /\ exists s' b,
       calculateBaseStats s = Some s'
       /\ s'.(baseResults) = Some b
       /\ b.(bodyFatPercentage) = nan
       /\ (0 <=? b.(bodyFatPercentage)) = false
       /\ (b.(bodyFatPercentage) <=? 50) = false
       /\ b.(allowedGoals) = allGoals.
Proof.
  cbv zeta. split; [reflexivity|].
  match goal with |- context [calculateBaseStats ?s] =>
    destruct (calculateBaseStats_total s) as [entry [_ Hs]];
    assert (Hraw : calculateBodyFat s.(formData) = nan)
      by (apply calculateBodyFat_negative_argument; reflexivity)
  end.
  eexists _, _. split; [exact Hs|]. split; [reflexivity|].
  cbn [bodyFatPercentage]. rewrite Hraw. repeat split; reflexivity.
Qed.

End Degenerate.

Lemma degenerate_log_argument_witness :
  calculateBodyFat
    {| gender := male; age := 25; weight := 70; height := 175;
       neck := 35; waist := 20; hip := 95; exerciseLevel := sedentary |} = nan
  /\ (calculateBodyFat
        {| gender := male; age := 25; weight := 70; height := 175;
           neck := 35; waist := 35; hip := 95; exerciseLevel := sedentary |}
      = neg_infinity
      /\ exists s' b,
           calculateBaseStats
             {| formData :=
                  {| gender := male; age := 25; weight := 70; height := 175;
                     neck := 35; waist := 35; hip := 95;
                     exerciseLevel := sedentary |};
                baseResults := None; goalResults := None; selectedGoal := "" |}
           = Some s'
           /\ s'.(baseResults) = Some b
           /\ b.(bodyFatPercentage) = 0).
Proof.
  split.
  - apply (proj1 (degenerate_log_argument
                    {| formData :=
                         {| gender := male; age := 25; weight := 70;
                            height := 175; neck := 35; waist := 20; hip := 95;
                            exerciseLevel := sedentary |};
                       baseResults := None; goalResults := None;
                       selectedGoal := "" |})).
    reflexivity.
  - apply (proj2 (degenerate_log_argument
                    {| formData :=
                         {| gender := male; age := 25; weight := 70;
                            height := 175; neck := 35; waist := 35; hip := 95;
                            exerciseLevel := sedentary |};
                       baseResults := None; goalResults := None;
                       selectedGoal := "" |})).
    + reflexivity.
    + vm_compute. reflexivity.
Defined.

(** C1, where the claim fails: for the male input with waist 35 cm and
    neck 35 cm the argument of the logarithm is exactly 0, which is
    non-positive, and yet no NaN arises anywhere: the logarithm is
    -Infinity, the formula gives -Infinity, and none of the values computed
    on the way to the stored body fat is NaN. *)
Lemma degenerate_zero_argument_counterexample :
  (logArgument
     {| gender := male; age := 25; weight := 70; height := 175;
        neck := 35; waist := 35; hip := 95; exerciseLevel := sedentary |}
   <=? 0) = true
  /\ forallb (fun v => negb (is_nan v))
       (bodyFatIntermediates
          {| gender := male; age := 25; weight := 70; height := 175;
             neck := 35; waist := 35; hip := 95; exerciseLevel := sedentary |})
     = true
  /\ Math_log10
       (logArgument
          {| gender := male; age := 25; weight := 70; height := 175;
             neck := 35; waist := 35; hip := 95; exerciseLevel := sedentary |})
     = neg_infinity
  /\ calculateBodyFat
       {| gender := male; age := 25; weight := 70; height := 175;
          neck := 35; waist := 35; hip := 95; exerciseLevel := sedentary |}
     = neg_infinity
  /\ calculateBodyFat
       {| gender := male; age := 25; weight := 70; height := 175;
          neck := 35; waist := 35; hip := 95; exerciseLevel := sedentary |}
     <> nan.
Proof.
  split; [reflexivity|]. split; [vm_compute; reflexivity|].
  split; [vm_compute; reflexivity|]. split; [vm_compute; reflexivity|].
  replace (calculateBodyFat _) with neg_infinity by (vm_compute; reflexivity).
  float_neq.
Qed.

(** The defect of C2 at the spec's own scenario: for the female input with
    waist 30 cm, hip 30 cm and neck 70 cm the argument of the logarithm is
    negative, and the stored body-fat percentage is NaN. *)
Lemma degenerate_female_counterexample :
  (logArgument
     {| gender := female; age := 25; weight := 70; height := 175;
        neck := 70; waist := 30; hip := 30; exerciseLevel := sedentary |}
   <=? 0) = true
  /\ exists s' b,
       calculateBaseStats
         {| formData :=
              {| gender := female; age := 25; weight := 70; height := 175;
                 neck := 70; waist := 30; hip := 30;
                 exerciseLevel := sedentary |};
            baseResults := None; goalResults := None; selectedGoal := "" |}
       = Some s'
       /\ s'.(baseResults) = Some b
       /\ b.(bodyFatPercentage) = nan
       /\ b.(bodyFatPercentage) <> 0.
Proof.
  split; [reflexivity|].
  eexists _, _. split; [vm_compute; reflexivity|]. split; [reflexivity|].
  cbn [bodyFatPercentage]. split; [reflexivity|]. float_neq.
Qed.

(** ** Goal results and the base results they come from *)

Section Lifetime.

Context {M : JSMath}.

Lemma run_snoc (s : State) (events : list Event) (e : Event) :
  run s (events ++ [e])%list = step (run s events) e.
Proof. unfold run. rewrite fold_left_app. reflexivity. Qed.

Lemma calculateGoalResults_keeps_base (g : GoalKey) (s : State) :
  (calculateGoalResults g s).(baseResults) = s.(baseResults).
Proof.
  unfold calculateGoalResults.
  destruct s.(baseResults) eqn:E; [reflexivity | exact E].
Qed.

Lemma calculateBaseStats_resets (s : State) :
  exists s' b,
    calculateBaseStats s = Some s'
    /\ s'.(baseResults) = Some b
    /\ s'.(goalResults) = None
    /\ s'.(selectedGoal) = "".
Proof.
  destruct (calculateBaseStats_total s) as [entry [_ Hs]].
  eexists _, _. split; [exact Hs|]. repeat split.
Qed.

(** A base result in the state was stored by the last click on
    "Calculate". *)
Lemma baseResults_origin (events : list Event) (b : BaseResults) :
  (run initialState events).(baseResults) = Some b ->
  exists pre mid,
    events = (pre ++ ClickCalculate :: mid)%list
    /\ forallb (fun e => negb (isCalculate e)) mid = true
    /\ (run initialState (pre ++ [ClickCalculate])%list).(baseResults) = Some b.
Proof.
  revert b. induction events as [|e events IH] using rev_ind; intros b Hb.
  - discriminate Hb.
  - rewrite run_snoc in Hb. destruct e as [c| |g].
    + destruct (IH b Hb) as [pre [mid [-> [Hmid Hpre]]]].
      exists pre, (mid ++ [InputChange c])%list.
      rewrite <- app_assoc. split; [reflexivity|].
      split; [|exact Hpre].
      rewrite forallb_app, Hmid. reflexivity.
    + exists events, []. split; [reflexivity|]. split; [reflexivity|].
      rewrite run_snoc. exact Hb.
    + cbn [step] in Hb. rewrite calculateGoalResults_keeps_base in Hb.
      destruct (IH b Hb) as [pre [mid [-> [Hmid Hpre]]]].
      exists pre, (mid ++ [ClickGoal g])%list.
      rewrite <- app_assoc. split; [reflexivity|].
      split; [|exact Hpre].
      rewrite forallb_app, Hmid. reflexivity.
Qed.

(** C10: [calculateBaseStats] always stores a base result and resets
    [goalResults] to [null] and [selectedGoal] to the empty string;
    [calculateGoalResults] changes nothing while [baseResults] is [null];
    and in every state reached from the initial one, a goal result [r] comes
    with the base result [b] of the last click on "Calculate", that click
    came before the goal was chosen, only input changes came after the
    choice, and [r] holds the targets computed from [b]. *)
Theorem goalResults_within_baseResults :
  (forall s, exists s' b,
      calculateBaseStats s = Some s'
      /\ s'.(baseResults) = Some b
      /\ s'.(goalResults) = None
      /\ s'.(selectedGoal) = "")
  /\ (forall g s, s.(baseResults) = None -> calculateGoalResults g s = s)
  /\ (forall events r,
        (run initialState events).(goalResults) = Some r ->
        exists pre mid post g b,
          events = (pre ++ ClickCalculate :: mid ++ ClickGoal g :: post)%list
          /\ forallb (fun e => negb (isCalculate e)) mid = true
          /\ forallb isInputChange post = true
          /\ (run initialState (pre ++ [ClickCalculate])%list).(baseResults)
             = Some b
          /\ (run initialState events).(baseResults) = Some b
          /\ (run initialState events).(selectedGoal) = goalKeyString g
          /\ r.(goal) = g
          /\ r.(revisedCalorieTarget)
             = b.(baseCalories) * (GOAL_ADJUSTMENTS g).(calorie)
          /\ r.(revisedProteinTarget)
             = b.(baseProtein) * (GOAL_ADJUSTMENTS g).(protein)).
Proof.
  split; [exact calculateBaseStats_resets|]. split.
  { intros g s Hs. unfold calculateGoalResults. rewrite Hs. reflexivity. }
  induction events as [|e events IH] using rev_ind; intros r Hr.
  - discriminate Hr.
  - rewrite run_snoc in *. destruct e as [c| |g].
    + destruct (IH r Hr)
        as [pre [mid [post [g [b [-> [Hmid [Hpost [Hpre H]]]]]]]]].
      exists pre, mid, (post ++ [InputChange c])%list, g, b.
      split.
      { rewrite <- app_assoc. cbn. rewrite <- app_assoc. reflexivity. }
      split; [exact Hmid|].
      split; [rewrite forallb_app, Hpost; reflexivity|].
      split; [exact Hpre|]. exact H.
    + cbn [step] in Hr.
      destruct (calculateBaseStats_resets (run initialState events))
        as [s' [b [Hs [_ [Hg _]]]]].
      rewrite Hs in Hr. congruence.
    + cbn [step] in *.
      destruct (run initialState events).(baseResults) as [b|] eqn:Hb.
      * destruct (baseResults_origin events b Hb)
          as [pre [mid [-> [Hmid Hpre]]]].
        exists pre, mid, [], g, b.
        split; [rewrite <- app_assoc; reflexivity|].
        split; [exact Hmid|]. split; [reflexivity|].
        split; [exact Hpre|].
        unfold calculateGoalResults in *. rewrite Hb in *.
        cbn in Hr. injection Hr as <-. cbn.
        repeat split; reflexivity.
      * unfold calculateGoalResults in Hr. rewrite Hb in Hr.
        destruct (IH r Hr) as [pre [mid [post [g' [b [_ [_ [_ [_ [Hb' _]]]]]]]]]].
        congruence.
Qed.

End Lifetime.

Lemma goalResults_within_baseResults_witness :
  exists pre mid post g b,
    [InputChange (set_waist 90); ClickCalculate; InputChange (set_neck 40);
     ClickGoal maintenance; ClickGoal fat_loss; InputChange (set_age 30)]
    = (pre ++ ClickCalculate :: mid ++ ClickGoal g :: post)%list
    /\ forallb (fun e => negb (isCalculate e)) mid = true
    /\ forallb isInputChange post = true
    /\ (run initialState (pre ++ [ClickCalculate])%list).(baseResults) = Some b
    /\ (run initialState
          [InputChange (set_waist 90); ClickCalculate; InputChange (set_neck 40);
           ClickGoal maintenance; ClickGoal fat_loss; InputChange (set_age 30)]
       ).(baseResults) = Some b
    /\ g = fat_loss.
Proof.
  assert (Hr : exists r,
             (run initialState
                [InputChange (set_waist 90); ClickCalculate;
                 InputChange (set_neck 40); ClickGoal maintenance;
                 ClickGoal fat_loss; InputChange (set_age 30)]).(goalResults)
             = Some r /\ r.(goal) = fat_loss)
    by (eexists; split; vm_compute; reflexivity).
  destruct Hr as [r [Hr Hgoal]].
  destruct (proj2 (proj2 goalResults_within_baseResults) _ r Hr)
    as [pre [mid [post [g [b [He [Hmid [Hpost [Hpre [Hb [_ [Hg _]]]]]]]]]]]].
  exists pre, mid, post, g, b.
  repeat split; try assumption. congruence.
Defined.

(** ** Two runs with the reference [Math.log10] *)

(** The default form (male, 70 kg, 175 cm, neck 35, waist 80): category
    "Good", every goal allowed. *)
Example default_form_run :
  exists b,
    (run initialState [ClickCalculate]).(baseResults) = Some b
    /\ b.(bodyFatCategory) = "Good"
    /\ (15 <=? b.(bodyFatPercentage)) && (b.(bodyFatPercentage) <=? 16) = true
    /\ b.(allowedGoals) = allGoals.
Proof.
  eexists. split; [vm_compute; reflexivity|]. repeat split.
Qed.

(** The same form with waist 100: category "Obese", fat loss only. *)
Example waist_100_run :
  exists b,
    (run initialState
       [InputChange (set_waist 100); ClickCalculate]).(baseResults) = Some b
    /\ b.(bodyFatCategory) = "Obese"
    /\ (22 <? b.(bodyFatPercentage)) = true
    /\ b.(allowedGoals) = onlyFatLoss.
Proof.
  eexists. split; [vm_compute; reflexivity|]. repeat split.
Qed.

(** ** The rendered category badge and goal labels *)

Lemma getBodyFatCategory_in_table (bodyFat : float) (g : Gender) :
  exists entry,
    getBodyFatCategory bodyFat g = Some entry
    /\ In entry (BODY_FAT_CATEGORIES g).
Proof.
  unfold getBodyFatCategory.
  destruct (find (fun cat => bodyFat <=? cat.(max)) (BODY_FAT_CATEGORIES g))
    as [entry|] eqn:E.
  - exists entry. split; [reflexivity|]. apply (find_some _ _ E).
  - destruct g; cbn; eexists; (split; [reflexivity|]); cbn; auto 10.
Qed.

(** X1: whatever the body fat and the gender, the class string of the
    category badge is built from the [color] of the table entry the
    classifier returned, and it is never the gray default. *)
Theorem getCategoryColor_matches_table (bodyFat : float) (g : Gender) :
  exists entry,
    getBodyFatCategory bodyFat g = Some entry
    /\ getCategoryColor entry.(category)
       = ("text-" ++ entry.(color) ++ "-700 bg-" ++ entry.(color)
          ++ "-50 border-" ++ entry.(color) ++ "-200")%string
    /\ getCategoryColor entry.(category) <> "text-gray-700 bg-gray-50 border-gray-200".
Proof.
  destruct (getBodyFatCategory_in_table bodyFat g) as [entry [He Hin]].
  exists entry. split; [exact He|].
  destruct g; cbn in Hin;
    repeat (destruct Hin as [<- | Hin]; [split; [reflexivity | discriminate]|]);
    contradiction.
Qed.

(** X2: [getGoalLabel] gives every goal button's key the label written on
    that button, the five labels are distinct, and any other string is
    returned unchanged. *)
Theorem getGoalLabel_matches_buttons :
  Forall (fun o => getGoalLabel o.(GoalOption.key) = o.(GoalOption.label))
    goalOptions
  /\ map GoalOption.key goalOptions
     = map goalKeyString
         [maintenance; fat_loss; muscle_gain; weight_gain; recomposition]
  /\ NoDup (map GoalOption.label goalOptions)
  /\ (forall goal,
        In goal (map GoalOption.key goalOptions) \/ getGoalLabel goal = goal).
Proof.
  split; [repeat constructor|]. split; [reflexivity|]. split.
  - repeat constructor; cbn; intuition discriminate.
  - intros goal. unfold getGoalLabel.
    destruct (String.eqb_spec goal "maintenance"); [left; cbn; auto|].
    destruct (String.eqb_spec goal "fat-loss"); [left; cbn; auto|].
    destruct (String.eqb_spec goal "muscle-gain"); [left; cbn; auto|].
    destruct (String.eqb_spec goal "weight-gain"); [left; cbn; auto 6|].
    destruct (String.eqb_spec goal "recomposition"); [left; cbn; auto 6|].
    right. reflexivity.
Qed.

(** ** The goal buttons and the restriction card *)

Section Card.

Context {M : JSMath}.

(** X3: after [calculateBaseStats] the goal buttons left enabled are
    exactly the goals stored in [allowedGoals], in the same order: no
    allowed goal lacks a button and no other button can be pressed. *)
Theorem enabled_buttons_are_allowedGoals (s : State) :
  exists s' b,
    calculateBaseStats s = Some s'
    /\ s'.(baseResults) = Some b
    /\ map GoalOption.key (filter (isAllowed b) goalOptions) = b.(allowedGoals).
Proof.
  destruct (calculateBaseStats_total s) as [entry [_ Hs]].
  eexists _, _. split; [exact Hs|]. split; [reflexivity|].
  unfold isAllowed. cbn [allowedGoals]. unfold getAllowedGoals.
  destruct (isObese _ _); [|destruct (isAboveAverage _ _)]; reflexivity.
Qed.

(** X4: after [calculateBaseStats] the three class strings of the
    restriction card have the same tone, red in the obese band, orange in
    the above-average band and emerald otherwise, and the check mark is
    drawn exactly when neither band applies. *)
Theorem restriction_card_follows_bands (s : State) :
  exists s' b,
    calculateBaseStats s = Some s'
    /\ s'.(baseResults) = Some b
    /\ (restrictionCardClass b, restrictionIconClass b,
        restrictionTextClass b, restrictionIconIsCheck b)
       = if isObese b.(bodyFatPercentage) s.(formData).(gender) then
           ("bg-red-50 border-red-200", "bg-red-500", "text-red-700", false)
         else if isAboveAverage b.(bodyFatPercentage) s.(formData).(gender) then
           ("bg-orange-50 border-orange-200", "bg-orange-500",
            "text-orange-700", false)
         else
           ("bg-emerald-50 border-emerald-200", "bg-emerald-500",
            "text-emerald-700", true).
Proof.
  destruct (calculateBaseStats_total s) as [entry [_ Hs]].
  eexists _, _. split; [exact Hs|]. split; [reflexivity|].
  unfold restrictionCardClass, restrictionIconClass, restrictionTextClass,
    restrictionIconIsCheck.
  cbn [allowedGoals bodyFatPercentage]. unfold getAllowedGoals.
  destruct (isObese _ _); [|destruct (isAboveAverage _ _)]; reflexivity.
Qed.

End Card.

(** ** Goal clicks *)

(** X5: goal multipliers never stack: a goal click after another goal
    click leaves the state a single click on the second goal would leave,
    the targets being computed from the base values each time. *)
Theorem calculateGoalResults_last_click_wins (g1 g2 : GoalKey) (s : State) :
  calculateGoalResults g2 (calculateGoalResults g1 s) = calculateGoalResults g2 s.
Proof.
  unfold calculateGoalResults.
  destruct s.(baseResults) as [b|] eqn:E; cbn; rewrite ?E; reflexivity.
Qed.

(** X6: the maintenance goal returns both base values unchanged, bit for
    bit (also when they are NaN or infinite), so no "+" is shown before the
    differences; recomposition returns the base calories unchanged. *)
Theorem maintenance_keeps_base_values (s : State) (b : BaseResults) :
  s.(baseResults) = Some b ->
  (exists r,
     (calculateGoalResults maintenance s).(goalResults) = Some r
     /\ r.(revisedCalorieTarget) = b.(baseCalories)
     /\ r.(revisedProteinTarget) = b.(baseProtein)
     /\ deltaPrefix r.(revisedCalorieTarget) b.(baseCalories) = ""
     /\ deltaPrefix r.(revisedProteinTarget) b.(baseProtein) = "")
  /\ (exists r,
        (calculateGoalResults recomposition s).(goalResults) = Some r
        /\ r.(revisedCalorieTarget) = b.(baseCalories)
        /\ deltaPrefix r.(revisedCalorieTarget) b.(baseCalories) = "").
Proof.
  intros Hb. unfold calculateGoalResults. rewrite Hb.
  cbn [goalResults GOAL_ADJUSTMENTS calorie protein].
  split; eexists; (split; [reflexivity|]);
    cbn [revisedCalorieTarget revisedProteinTarget];
    unfold deltaPrefix; rewrite ?FloatFacts.mul_one_r, ?FloatFacts.ltb_irrefl;
    repeat split; reflexivity.
Qed.

Lemma maintenance_keeps_base_values_witness :
  (exists r,
     (calculateGoalResults maintenance
        (run initialState [ClickCalculate])).(goalResults) = Some r
     /\ r.(revisedCalorieTarget) = 1979.2837587567828
     /\ r.(revisedProteinTarget) = 84
     /\ deltaPrefix r.(revisedCalorieTarget) 1979.2837587567828 = ""
     /\ deltaPrefix r.(revisedProteinTarget) 84 = "")
  /\ (exists r,
        (calculateGoalResults recomposition
           (run initialState [ClickCalculate])).(goalResults) = Some r
        /\ r.(revisedCalorieTarget) = 1979.2837587567828
        /\ deltaPrefix r.(revisedCalorieTarget) 1979.2837587567828 = "").
Proof.
  assert (Hb : (run initialState [ClickCalculate]).(baseResults) =
               Some {| bodyFatPercentage := 15.383390721076786;
                       bodyFatCategory := "Good";
                       leanBodyMass := 59.231626495246253;
                       baseCalories := 1979.2837587567828;
                       baseProtein := 84;
                       allowedGoals := allGoals;
                       restrictionMessage :=
                         "All goals are available based on your current body composition." |})
    by (vm_compute; reflexivity).
  exact (maintenance_keeps_base_values _ _ Hb).
Defined.

(** ** The clamp, case by case *)

Lemma is_nan_true_eq (x : float) : is_nan x = true -> x = nan.
Proof.
  intros H. apply Prim2SF_inj. apply FloatFacts.is_nan_Prim2SF in H.
  rewrite H. reflexivity.
Qed.

Lemma leb_negb_ltb (x c : float) :
  is_nan x = false -> is_nan c = false -> (x <=? c) = negb (c <? x).
Proof.
  intros Hx Hc. destruct (c <? x) eqn:E.
  - apply FloatFacts.ltb_not_leb, E.
  - apply (FloatFacts.not_ltb_leb _ _ Hc Hx E).
Qed.

Lemma clamp_0_50_cases (x : float) :
  clamp_0_50 x =
  if is_nan x then nan
  else if x <=? 0 then 0
  else if 50 <=? x then 50
  else x.
Proof.
  destruct (is_nan x) eqn:N.
  - rewrite (is_nan_true_eq _ N). reflexivity.
  - unfold clamp_0_50, Math_min.
    change (is_nan 50) with false. rewrite N.
    change (is_pos_zero 50) with false. cbn [orb andb].
    rewrite (leb_negb_ltb x 0 N eq_refl), (leb_negb_ltb 50 x eq_refl N).
    destruct (x <? 50) eqn:L50; cbn [negb].
    + unfold Math_max. change (is_nan 0) with false. rewrite N.
      change (is_neg_zero 0) with false. cbn [orb andb].
      destruct (0 <? x); reflexivity.
    + assert (H0 : (0 <? x) = true).
      { apply FloatFacts.not_ltb_leb in L50; [|exact N|reflexivity].
        apply (FloatFacts.ltb_leb_trans 0 50 x); [reflexivity | exact L50]. }
      rewrite H0. reflexivity.
Qed.

Section StoredBodyFat.

Context {M : JSMath}.

(** X7: the stored body-fat percentage is NaN when the formula gives NaN,
    0 when the formula gives a value [<= 0] (also -Infinity or -0), 50 when
    it gives a value [>= 50], and the formula's value otherwise; it lies in
    [0, 50] exactly when the formula's value is not NaN. *)
Theorem stored_bodyFat_cases (s : State) :
  exists s' b,
    calculateBaseStats s = Some s'
    /\ s'.(baseResults) = Some b
    /\ b.(bodyFatPercentage)
       = (let raw := calculateBodyFat s.(formData) in
          if is_nan raw then nan
          else if raw <=? 0 then 0
          else if 50 <=? raw then 50
          else raw)
    /\ (0 <=? b.(bodyFatPercentage)) && (b.(bodyFatPercentage) <=? 50)
       = negb (is_nan (calculateBodyFat s.(formData))).
Proof.
  destruct (calculateBaseStats_total s) as [entry [_ Hs]].
  eexists _, _. split; [exact Hs|]. split; [reflexivity|].
  cbn [bodyFatPercentage]. split; [apply clamp_0_50_cases|].
  destruct (is_nan (calculateBodyFat s.(formData))) eqn:N.
  - rewrite (is_nan_true_eq _ N). reflexivity.
  - destruct (clamp_0_50_range _ N) as [H0 H50]. rewrite H0, H50. reflexivity.
Qed.

End StoredBodyFat.

(** ** The gate against the classifier *)

Lemma leb_ltb_trans (a b x : float) :
  (a <=? b) = true -> (b <? x) = true -> (a <? x) = true.
Proof.
  intros Hab Hbx. destruct (a <? x) eqn:E; [reflexivity|].
  destruct (FloatFacts.leb_not_nan _ _ Hab) as [Na _].
  destruct (FloatFacts.ltb_not_nan _ _ Hbx) as [_ Nx].
  pose proof (FloatFacts.not_ltb_leb _ _ Na Nx E) as Hxa.
  pose proof (FloatFacts.leb_trans _ _ _ Hxa Hab) as Hxb.
  rewrite (FloatFacts.ltb_not_leb _ _ Hbx) in Hxb. discriminate Hxb.
Qed.

(** On a body fat that is not NaN the classifier and the gate use the same
    cuts: "Obese" is the obese band and "Above Average" the band below. *)
Lemma category_agrees_with_gate (bodyFat : float) (g : Gender) :
  is_nan bodyFat = false ->
  exists entry,
    getBodyFatCategory bodyFat g = Some entry
    /\ (entry.(category) = "Obese" <-> isObese bodyFat g = true)
    /\ (entry.(category) = "Above Average"
        <-> isObese bodyFat g = false /\ isAboveAverage bodyFat g = true).
Proof.
  intros N.
  pose proof (getBodyFatCategory_cascade bodyFat g) as Hc.
  destruct (getBodyFatCategory bodyFat g) as [entry|]; [|discriminate Hc].
  exists entry. split; [reflexivity|].
  cbn in Hc. injection Hc as ->.
  unfold isObese, isAboveAverage.
  destruct g; cbn -[ltb leb]; rewrite ?orb_false_r;
    rewrite !(fun c Hc' => leb_negb_ltb bodyFat c N Hc') by reflexivity.
  - pose proof (leb_ltb_trans 13 16 bodyFat eq_refl) as H1.
    pose proof (leb_ltb_trans 16 20 bodyFat eq_refl) as H2.
    pose proof (leb_ltb_trans 20 22 bodyFat eq_refl) as H3.
    destruct (22 <? bodyFat), (20 <? bodyFat), (16 <? bodyFat),
             (13 <? bodyFat);
      try (specialize (H1 eq_refl); discriminate H1);
      try (specialize (H2 eq_refl); discriminate H2);
      try (specialize (H3 eq_refl); discriminate H3);
      cbn; (split; split); try discriminate; try reflexivity;
      try (intros [? ?]; discriminate); auto.
  - pose proof (leb_ltb_trans 16 19 bodyFat eq_refl) as H1.
    pose proof (leb_ltb_trans 19 28 bodyFat eq_refl) as H2.
    pose proof (leb_ltb_trans 28 33 bodyFat eq_refl) as H3.
    destruct (33 <? bodyFat), (28 <? bodyFat), (19 <? bodyFat),
             (16 <? bodyFat);
      try (specialize (H1 eq_refl); discriminate H1);
      try (specialize (H2 eq_refl); discriminate H2);
      try (specialize (H3 eq_refl); discriminate H3);
      cbn; (split; split); try discriminate; try reflexivity;
      try (intros [? ?]; discriminate); auto.
Qed.

Lemma allowed_onlyFatLoss_iff (bodyFat : float) (g : Gender) :
  (getAllowedGoals bodyFat g).(allowed) = onlyFatLoss <-> isObese bodyFat g = true.
Proof.
  unfold getAllowedGoals.
  destruct (isObese bodyFat g); [|destruct (isAboveAverage bodyFat g)];
    cbn; split; intros H; try reflexivity; discriminate H.
Qed.

Lemma allowed_allButWeightGain_iff (bodyFat : float) (g : Gender) :
  (getAllowedGoals bodyFat g).(allowed) = allButWeightGain
  <-> isObese bodyFat g = false /\ isAboveAverage bodyFat g = true.
Proof.
  unfold getAllowedGoals.
  destruct (isObese bodyFat g); [|destruct (isAboveAverage bodyFat g)];
    cbn; split; try (intros [? ?]); intros; try discriminate; auto.
Qed.

Section Consistency.

Context {M : JSMath}.

(** X8: when the stored body fat is not NaN, the category shown and the
    goals allowed agree: the category is "Obese" exactly when only fat loss
    is allowed, and "Above Average" exactly when every goal but weight gain
    is allowed. *)
Theorem category_consistent_with_allowedGoals (s : State) :
  is_nan (calculateBodyFat s.(formData)) = false ->
  exists s' b,
    calculateBaseStats s = Some s'
    /\ s'.(baseResults) = Some b
    /\ (b.(bodyFatCategory) = "Obese" <-> b.(allowedGoals) = onlyFatLoss)
    /\ (b.(bodyFatCategory) = "Above Average"
        <-> b.(allowedGoals) = allButWeightGain).
Proof.
  intros N.
  destruct (calculateBaseStats_total s) as [entry [He Hs]].
  eexists _, _. split; [exact Hs|]. split; [reflexivity|].
  cbn [bodyFatCategory allowedGoals].
  assert (Nc : is_nan (clamp_0_50 (calculateBodyFat s.(formData))) = false).
  { destruct (clamp_0_50_range _ N) as [H0 _].
    apply (FloatFacts.leb_not_nan _ _ H0). }
  destruct (category_agrees_with_gate _ s.(formData).(gender) Nc)
    as [entry' [He' [Ho Ha]]].
  rewrite He in He'. injection He' as <-.
  rewrite allowed_onlyFatLoss_iff, allowed_allButWeightGain_iff.
  split; assumption.
Qed.

End Consistency.

Lemma category_consistent_with_allowedGoals_witness :
  exists s' b,
    calculateBaseStats (handleInputChange (set_waist 100) initialState) = Some s'
    /\ s'.(baseResults) = Some b
    /\ (b.(bodyFatCategory) = "Obese" <-> b.(allowedGoals) = onlyFatLoss)
    /\ (b.(bodyFatCategory) = "Above Average"
        <-> b.(allowedGoals) = allButWeightGain).
Proof.
  apply (category_consistent_with_allowedGoals
           (handleInputChange (set_waist 100) initialState)).
  vm_compute. reflexivity.
Defined.

(** X9: the gate is monotone: for a fixed gender and body-fat values
    [x <= y], every goal allowed at [y] is allowed at [x]. *)
Theorem getAllowedGoals_antitone (g : Gender) (x y : float) :
  (x <=? y) = true ->
  incl (getAllowedGoals y g).(allowed) (getAllowedGoals x g).(allowed).
Proof.
  intros Hxy.
  destruct (FloatFacts.leb_not_nan _ _ Hxy) as [Nx Ny].
  assert (Hlt : forall c, (c <? x) = true -> (c <? y) = true)
    by (intros c Hc; apply (FloatFacts.ltb_leb_trans c x y Hc Hxy)).
  unfold getAllowedGoals, isObese, isAboveAverage.
  destruct g; cbn -[ltb leb]; rewrite ?orb_false_r;
    rewrite !(fun v c Nv Hc' => leb_negb_ltb v c Nv Hc') by (assumption || reflexivity);
    repeat match goal with
           | |- context [?c <? x] =>
               let E := fresh "E" in
               destruct (c <? x) eqn:E; [rewrite (Hlt c E)|]
           end;
    repeat match goal with
           | |- context [?c <? y] => destruct (c <? y)
           end;
    cbn; intros a Ha; cbn in *; intuition.
Qed.

Lemma getAllowedGoals_antitone_witness :
  incl (getAllowedGoals 25 male).(allowed) (getAllowedGoals 21 male).(allowed).
Proof.
  apply (getAllowedGoals_antitone male 21 25). reflexivity.
Defined.

(** ** What each input can and cannot change *)

Section Inputs.

Context {M : JSMath}.

(** X10: typing into the form never touches the results: after any number
    of input changes the base results, the goal results and the selected
    goal are the ones shown before, whatever the form now says. *)
Theorem input_changes_keep_results (s : State) (events : list Event) :
  forallb isInputChange events = true ->
  (run s events).(baseResults) = s.(baseResults)
  /\ (run s events).(goalResults) = s.(goalResults)
  /\ (run s events).(selectedGoal) = s.(selectedGoal).
Proof.
  revert s. induction events as [|e events IH]; intros s H.
  - repeat split.
  - cbn in H. apply andb_prop in H. destruct H as [He H].
    destruct e as [c| |g]; try discriminate He.
    change (run s (InputChange c :: events))
      with (run (handleInputChange c s) events).
    destruct (IH (handleInputChange c s) H) as [Hb [Hg Hsel]].
    rewrite Hb, Hg, Hsel. repeat split.
Qed.

(** The whole of [calculateBaseStats] is a function of the form data. *)
Lemma calculateBaseStats_reads_formData (s1 s2 : State) :
  s1.(formData) = s2.(formData) -> calculateBaseStats s1 = calculateBaseStats s2.
Proof. intros H. unfold calculateBaseStats. rewrite H. reflexivity. Qed.

Lemma clicks_keep_formData (s : State) (events : list Event) :
  forallb (fun e => negb (isInputChange e)) events = true ->
  (run s events).(formData) = s.(formData).
Proof.
  revert s. induction events as [|e events IH]; intros s H; [reflexivity|].
  cbn in H. apply andb_prop in H. destruct H as [He H].
  change (run s (e :: events)) with (run (step s e) events).
  rewrite (IH _ H). destruct e as [c| |g]; try discriminate He.
  - cbn [step]. destruct (calculateBaseStats_total s) as [entry [_ Hs]].
    rewrite Hs. reflexivity.
  - cbn [step]. unfold calculateGoalResults.
    destruct s.(baseResults); reflexivity.
Qed.

(** X11: a click on "Calculate" wipes out every click made since the last
    input change: after any sequence of goal clicks and "Calculate" clicks,
    one more "Calculate" leaves the state a single "Calculate" would. *)
Theorem calculate_absorbs_clicks (s : State) (events : list Event) :
  forallb (fun e => negb (isInputChange e)) events = true ->
  run s (events ++ [ClickCalculate])%list = run s [ClickCalculate].
Proof.
  intros H. rewrite run_snoc. cbn [run fold_left step].
  rewrite (calculateBaseStats_reads_formData (run s events) s
             (clicks_keep_formData s events H)).
  destruct (calculateBaseStats_total s) as [entry [_ Hs]].
  rewrite Hs. reflexivity.
Qed.

(** X12: the age is collected but never used: two forms that differ in
    [age] only give the same base results, and so the same goal results. *)
Theorem age_irrelevant (s1 s2 : State) :
  s1.(formData).(gender) = s2.(formData).(gender) ->
  s1.(formData).(weight) = s2.(formData).(weight) ->
  s1.(formData).(height) = s2.(formData).(height) ->
  s1.(formData).(neck) = s2.(formData).(neck) ->
  s1.(formData).(waist) = s2.(formData).(waist) ->
  s1.(formData).(hip) = s2.(formData).(hip) ->
  s1.(formData).(exerciseLevel) = s2.(formData).(exerciseLevel) ->
  exists s1' s2' b,
    calculateBaseStats s1 = Some s1'
    /\ calculateBaseStats s2 = Some s2'
    /\ s1'.(baseResults) = Some b
    /\ s2'.(baseResults) = Some b
    /\ forall goal,
         (calculateGoalResults goal s1').(goalResults)
         = (calculateGoalResults goal s2').(goalResults).
Proof.
  intros Hg Hw Hh Hn Hwa Hhi Hl.
  assert (Hbf : calculateBodyFat s1.(formData) = calculateBodyFat s2.(formData))
    by (unfold calculateBodyFat; rewrite Hg, Hh, Hn, Hwa, Hhi; reflexivity).
  destruct (calculateBaseStats_total s1) as [e1 [He1 H1]].
  destruct (calculateBaseStats_total s2) as [e2 [He2 H2]].
  rewrite Hbf, Hg in *. rewrite He1 in He2. injection He2 as <-.
  rewrite Hw, Hl in H1.
  eexists _, _, _. split; [exact H1|]. split; [exact H2|].
  split; [reflexivity|]. split; [reflexivity|].
  intros goal. reflexivity.
Qed.

(** X13: body fat, category, allowed goals and message depend on gender,
    height, neck, waist and hip only: weight, age and activity level do not
    enter them. *)
Theorem composition_ignores_weight_and_activity (s1 s2 : State) :
  s1.(formData).(gender) = s2.(formData).(gender) ->
  s1.(formData).(height) = s2.(formData).(height) ->
  s1.(formData).(neck) = s2.(formData).(neck) ->
  s1.(formData).(waist) = s2.(formData).(waist) ->
  s1.(formData).(hip) = s2.(formData).(hip) ->
  exists s1' s2' b1 b2,
    calculateBaseStats s1 = Some s1'
    /\ calculateBaseStats s2 = Some s2'
    /\ s1'.(baseResults) = Some b1
    /\ s2'.(baseResults) = Some b2
    /\ b1.(bodyFatPercentage) = b2.(bodyFatPercentage)
    /\ b1.(bodyFatCategory) = b2.(bodyFatCategory)
    /\ b1.(allowedGoals) = b2.(allowedGoals)
    /\ b1.(restrictionMessage) = b2.(restrictionMessage).
Proof.
  intros Hg Hh Hn Hwa Hhi.
  assert (Hbf : calculateBodyFat s1.(formData) = calculateBodyFat s2.(formData))
    by (unfold calculateBodyFat; rewrite Hg, Hh, Hn, Hwa, Hhi; reflexivity).
  destruct (calculateBaseStats_total s1) as [e1 [He1 H1]].
  destruct (calculateBaseStats_total s2) as [e2 [He2 H2]].
  rewrite Hbf, Hg in *. rewrite He1 in He2. injection He2 as <-.
  eexists _, _, _, _. split; [exact H1|]. split; [exact H2|].
  repeat split.
Qed.

(** X14: the protein base depends on weight and activity level only; in
    particular it is the same number whether or not the measurements make
    the body-fat formula degenerate. *)
Theorem baseProtein_reads_weight_and_activity (s1 s2 : State) :
  s1.(formData).(weight) = s2.(formData).(weight) ->
  s1.(formData).(exerciseLevel) = s2.(formData).(exerciseLevel) ->
  exists s1' s2' b1 b2,
    calculateBaseStats s1 = Some s1'
    /\ calculateBaseStats s2 = Some s2'
    /\ s1'.(baseResults) = Some b1
    /\ s2'.(baseResults) = Some b2
    /\ b1.(baseProtein) = b2.(baseProtein)
    /\ forall goal r1 r2,
         (calculateGoalResults goal s1').(goalResults) = Some r1 ->
         (calculateGoalResults goal s2').(goalResults) = Some r2 ->
         r1.(revisedProteinTarget) = r2.(revisedProteinTarget).
Proof.
  intros Hw Hl.
  destruct (calculateBaseStats_total s1) as [e1 [_ H1]].
  destruct (calculateBaseStats_total s2) as [e2 [_ H2]].
  eexists _, _, _, _. split; [exact H1|]. split; [exact H2|].
  split; [reflexivity|]. split; [reflexivity|].
  cbn [baseProtein]. rewrite Hw, Hl. split; [reflexivity|].
  intros goal r1 r2. unfold calculateGoalResults.
  cbn [baseResults goalResults baseProtein].
  intros [= <-] [= <-]. reflexivity.
Qed.

End Inputs.

Lemma input_changes_keep_results_witness :
  (run (run initialState [ClickCalculate; ClickGoal fat_loss])
     [InputChange (set_gender female); InputChange (set_waist 120)]).(baseResults)
  = (run initialState [ClickCalculate; ClickGoal fat_loss]).(baseResults)
  /\ (run (run initialState [ClickCalculate; ClickGoal fat_loss])
        [InputChange (set_gender female); InputChange (set_waist 120)]).(goalResults)
     = (run initialState [ClickCalculate; ClickGoal fat_loss]).(goalResults)
  /\ (run (run initialState [ClickCalculate; ClickGoal fat_loss])
        [InputChange (set_gender female); InputChange (set_waist 120)]).(selectedGoal)
     = (run initialState [ClickCalculate; ClickGoal fat_loss]).(selectedGoal).
Proof.
  apply (input_changes_keep_results
           (run initialState [ClickCalculate; ClickGoal fat_loss])
           [InputChange (set_gender female); InputChange (set_waist 120)]).
  reflexivity.
Defined.

Lemma calculate_absorbs_clicks_witness :
  run initialState
    ([ClickCalculate; ClickGoal fat_loss; ClickGoal maintenance]
     ++ [ClickCalculate])%list
  = run initialState [ClickCalculate].
Proof.
  apply (calculate_absorbs_clicks initialState
           [ClickCalculate; ClickGoal fat_loss; ClickGoal maintenance]).
  reflexivity.
Defined.

Lemma age_irrelevant_witness :
  exists s1' s2' b,
    calculateBaseStats initialState = Some s1'
    /\ calculateBaseStats (handleInputChange (set_age 60) initialState) = Some s2'
    /\ s1'.(baseResults) = Some b
    /\ s2'.(baseResults) = Some b
    /\ forall goal,
         (calculateGoalResults goal s1').(goalResults)
         = (calculateGoalResults goal s2').(goalResults).
Proof.
  apply (age_irrelevant initialState
           (handleInputChange (set_age 60) initialState)); reflexivity.
Defined.

Lemma composition_ignores_weight_and_activity_witness :
  exists s1' s2' b1 b2,
    calculateBaseStats initialState = Some s1'
    /\ calculateBaseStats
         (handleInputChange (set_exerciseLevel daily)
            (handleInputChange (set_weight 95) initialState)) = Some s2'
    /\ s1'.(baseResults) = Some b1
    /\ s2'.(baseResults) = Some b2
    /\ b1.(bodyFatPercentage) = b2.(bodyFatPercentage)
    /\ b1.(bodyFatCategory) = b2.(bodyFatCategory)
    /\ b1.(allowedGoals) = b2.(allowedGoals)
    /\ b1.(restrictionMessage) = b2.(restrictionMessage).
Proof.
  apply (composition_ignores_weight_and_activity initialState
           (handleInputChange (set_exerciseLevel daily)
              (handleInputChange (set_weight 95) initialState)));
    reflexivity.
Defined.

Lemma baseProtein_reads_weight_and_activity_witness :
  exists s1' s2' b1 b2,
    calculateBaseStats initialState = Some s1'
    /\ calculateBaseStats
         (handleInputChange (set_neck 70)
            (handleInputChange (set_waist 30) initialState)) = Some s2'
    /\ s1'.(baseResults) = Some b1
    /\ s2'.(baseResults) = Some b2
    /\ b1.(baseProtein) = b2.(baseProtein)
    /\ forall goal r1 r2,
         (calculateGoalResults goal s1').(goalResults) = Some r1 ->
         (calculateGoalResults goal s2').(goalResults) = Some r2 ->
         r1.(revisedProteinTarget) = r2.(revisedProteinTarget).
Proof.
  apply (baseProtein_reads_weight_and_activity initialState
           (handleInputChange (set_neck 70)
              (handleInputChange (set_waist 30) initialState)));
    reflexivity.
Defined.

(** ** The selected goal and the enabled runs *)

Section Selection.

Context {M : JSMath}.

Lemma enabledRun_snoc (s : State) (events : list Event) (e : Event) :
  enabledRun s (events ++ [e])%list
  = enabledRun s events && enabled (run s events) e.
Proof.
  revert s. induction events as [|e' events IH]; intros s.
  - cbn. rewrite andb_true_r. reflexivity.
  - cbn [app enabledRun]. rewrite IH, andb_assoc. reflexivity.
Qed.

Lemma selectedGoal_in_sync (events : list Event) :
  (run initialState events).(selectedGoal)
  = match (run initialState events).(goalResults) with
    | None => ""
    | Some r => goalKeyString r.(goal)
    end.
Proof.
  induction events as [|e events IH] using rev_ind; [reflexivity|].
  rewrite run_snoc. destruct e as [c| |g]; cbn [step].
  - exact IH.
  - destruct (calculateBaseStats_total (run initialState events))
      as [entry [_ Hs]].
    rewrite Hs. reflexivity.
  - unfold calculateGoalResults.
    destruct (run initialState events).(baseResults); [reflexivity | exact IH].
Qed.

(** X15: in every state reached from the initial one, the highlighted goal
    button is the one of the goal results on screen: no button is
    highlighted while there are no goal results, and exactly the button of
    [goalResults.goal] is highlighted otherwise. *)
Theorem highlighted_button_is_goal (events : list Event) :
  map GoalOption.key
    (filter (isSelected (run initialState events)) goalOptions)
  = match (run initialState events).(goalResults) with
    | None => []
    | Some r => [goalKeyString r.(goal)]
    end.
Proof.
  unfold isSelected. rewrite selectedGoal_in_sync.
  destruct (run initialState events).(goalResults) as [r|]; [|reflexivity].
  destruct r.(goal); reflexivity.
Qed.

Lemma baseResults_builtByGate (events : list Event) (b : BaseResults) :
  (run initialState events).(baseResults) = Some b -> builtByGate b.
Proof.
  revert b. induction events as [|e events IH] using rev_ind; intros b Hb.
  - discriminate Hb.
  - rewrite run_snoc in Hb. destruct e as [c| |g]; cbn [step] in Hb.
    + apply IH, Hb.
    + destruct (calculateBaseStats_total (run initialState events))
        as [entry [He Hs]].
      rewrite Hs in Hb. injection Hb as <-.
      exists (run initialState events).(formData).(gender), entry.
      cbn [bodyFatPercentage bodyFatCategory allowedGoals restrictionMessage].
      repeat split. exact He.
    + rewrite calculateGoalResults_keeps_base in Hb. apply IH, Hb.
Qed.

Lemma enabled_goal_is_allowed (events : list Event) (r : GoalResults) :
  enabledRun initialState events = true ->
  (run initialState events).(goalResults) = Some r ->
  exists b,
    (run initialState events).(baseResults) = Some b
    /\ includes b.(allowedGoals) (goalKeyString r.(goal)) = true.
Proof.
  revert r. induction events as [|e events IH] using rev_ind; intros r Hen Hr.
  - discriminate Hr.
  - rewrite enabledRun_snoc in Hen. apply andb_prop in Hen.
    destruct Hen as [Hen He]. rewrite run_snoc in *.
    destruct e as [c| |g]; cbn [step] in *.
    + apply (IH r Hen Hr).
    + destruct (calculateBaseStats_total (run initialState events))
        as [entry [_ Hs]].
      rewrite Hs in Hr. discriminate Hr.
    + cbn [enabled] in He. unfold calculateGoalResults in *.
      destruct (run initialState events).(baseResults) as [b|] eqn:Hb;
        [|discriminate He].
      cbn in Hr. injection Hr as <-. exists b. split; [reflexivity|].
      exact He.
Qed.

(** X16: as long as the user can only press what the page leaves enabled,
    the goal results on screen are for a goal that the base results on
    screen allow. *)
Theorem shown_goal_is_allowed (events : list Event) (r : GoalResults) :
  enabledRun initialState events = true ->
  (run initialState events).(goalResults) = Some r ->
  exists b,
    (run initialState events).(baseResults) = Some b
    /\ In (goalKeyString r.(goal)) b.(allowedGoals).
Proof.
  intros Hen Hr.
  destruct (enabled_goal_is_allowed events r Hen Hr) as [b [Hb Hin]].
  exists b. split; [exact Hb|].
  unfold includes in Hin. apply existsb_exists in Hin.
  destruct Hin as [x [Hx Heq]]. apply String.eqb_eq in Heq. subst x. exact Hx.
Qed.

(** X17: under the same condition, and when the stored body fat is not
    NaN, the goal on screen respects the category on screen: with "Obese"
    it is fat loss, and with "Above Average" it is not weight gain. *)
Theorem shown_goal_respects_category
    (events : list Event) (b : BaseResults) (r : GoalResults) :
  enabledRun initialState events = true ->
  (run initialState events).(baseResults) = Some b ->
  (run initialState events).(goalResults) = Some r ->
  is_nan b.(bodyFatPercentage) = false ->
  (b.(bodyFatCategory) = "Obese" -> r.(goal) = fat_loss)
  /\ (b.(bodyFatCategory) = "Above Average" -> r.(goal) <> weight_gain).
Proof.
  intros Hen Hb Hr N.
  destruct (enabled_goal_is_allowed events r Hen Hr) as [b' [Hb' Hin]].
  rewrite Hb in Hb'. injection Hb' as <-.
  destruct (baseResults_builtByGate events b Hb)
    as [g [entry [He [Hcat [Hall _]]]]].
  destruct (category_agrees_with_gate _ g N) as [entry' [He' [Ho Ha]]].
  rewrite He in He'. injection He' as <-.
  rewrite Hcat, Hall in *. split.
  - intros Hob. apply Ho in Hob.
    apply allowed_onlyFatLoss_iff in Hob. rewrite Hob in Hin.
    destruct r.(goal); try discriminate Hin; reflexivity.
  - intros Hab. apply Ha in Hab.
    apply allowed_allButWeightGain_iff in Hab. rewrite Hab in Hin.
    intros Hg. rewrite Hg in Hin. discriminate Hin.
Qed.

End Selection.

Lemma shown_goal_is_allowed_witness :
  exists b,
    (run initialState
       [InputChange (set_waist 100); ClickCalculate; ClickGoal fat_loss]
    ).(baseResults) = Some b
    /\ In (goalKeyString fat_loss) b.(allowedGoals).
Proof.
  assert (Hr : exists r,
             (run initialState
                [InputChange (set_waist 100); ClickCalculate;
                 ClickGoal fat_loss]).(goalResults) = Some r
             /\ r.(goal) = fat_loss)
    by (eexists; split; vm_compute; reflexivity).
  destruct Hr as [r [Hr Hg]].
  assert (Hen : enabledRun initialState
                  [InputChange (set_waist 100); ClickCalculate;
                   ClickGoal fat_loss] = true)
    by (vm_compute; reflexivity).
  destruct (shown_goal_is_allowed _ r Hen Hr) as [b [Hb Hin]].
  exists b. split; [exact Hb|]. rewrite <- Hg. exact Hin.
Defined.

Lemma shown_goal_respects_category_witness :
  exists b r,
    (run initialState
       [InputChange (set_waist 100); ClickCalculate; ClickGoal fat_loss]
    ).(baseResults) = Some b
    /\ (run initialState
          [InputChange (set_waist 100); ClickCalculate; ClickGoal fat_loss]
       ).(goalResults) = Some r
    /\ b.(bodyFatCategory) = "Obese"
    /\ r.(goal) = fat_loss.
Proof.
  assert (Hb : exists b,
             (run initialState
                [InputChange (set_waist 100); ClickCalculate;
                 ClickGoal fat_loss]).(baseResults) = Some b
             /\ is_nan b.(bodyFatPercentage) = false
             /\ b.(bodyFatCategory) = "Obese")
    by (eexists; repeat split; vm_compute; reflexivity).
  assert (Hr : exists r,
             (run initialState
                [InputChange (set_waist 100); ClickCalculate;
                 ClickGoal fat_loss]).(goalResults) = Some r)
    by (eexists; vm_compute; reflexivity).
  destruct Hb as [b [Hb [N Hcat]]]. destruct Hr as [r Hr].
  assert (Hen : enabledRun initialState
                  [InputChange (set_waist 100); ClickCalculate;
                   ClickGoal fat_loss] = true)
    by (vm_compute; reflexivity).
  exists b, r. split; [exact Hb|]. split; [exact Hr|]. split; [exact Hcat|].
  exact (proj1 (shown_goal_respects_category _ b r Hen Hb Hr N) Hcat).
Defined.

(** ** Degenerate inputs, as the page shows them *)

Lemma mul_nan_l (y : float) : nan * y = nan.
Proof. apply Prim2SF_inj. rewrite mul_spec. reflexivity. Qed.

Lemma sub_finite_neg_infinity (t : float) :
  is_finite t = true -> t - neg_infinity = infinity.
Proof.
  unfold is_finite, is_nan, is_infinity.
  rewrite !FloatAxioms.eqb_spec, abs_spec. intros H.
  apply Prim2SF_inj. rewrite sub_spec.
  change (Prim2SF neg_infinity) with (S754_infinity true).
  change (Prim2SF infinity) with (S754_infinity false) in *.
  destruct (Prim2SF t) as [s|s| |s m e]; try reflexivity.
  - destruct s; discriminate H.
  - discriminate H.
Qed.

Section DegenerateShown.

Context {M : JSMath}.

(** X18: whenever the formula gives NaN (a negative logarithm argument, a
    negative height, a NaN field), the page stores NaN as body fat, lean
    mass and base calories, and yet shows the category "Obese" together
    with all five goals and the check mark. *)
Theorem nan_bodyFat_as_shown (s : State) :
  is_nan (calculateBodyFat s.(formData)) = true ->
  exists s' b,
    calculateBaseStats s = Some s'
    /\ s'.(baseResults) = Some b
    /\ b.(bodyFatPercentage) = nan
    /\ b.(leanBodyMass) = nan
    /\ b.(baseCalories) = nan
    /\ b.(bodyFatCategory) = "Obese"
    /\ b.(allowedGoals) = allGoals
    /\ restrictionIconIsCheck b = true.
Proof.
  intros N. apply is_nan_true_eq in N.
  destruct (calculateBaseStats_total s) as [entry [He Hs]].
  rewrite N in He, Hs.
  change (clamp_0_50 nan) with nan in He, Hs.
  assert (Hcat : entry.(category) = "Obese")
    by (destruct s.(formData).(gender); cbn in He; injection He as <-; reflexivity).
  eexists _, _. split; [exact Hs|]. split; [reflexivity|].
  cbn [bodyFatPercentage leanBodyMass baseCalories bodyFatCategory allowedGoals].
  change (1 - nan / 100) with nan.
  rewrite FloatFacts.mul_nan_r.
  change (370 + 21.6 * nan) with nan. rewrite mul_nan_l.
  repeat split; try assumption;
    destruct s.(formData).(gender); reflexivity.
Qed.

(** X19: with the height field cleared (height 0) and a finite first term,
    the formula gives +Infinity, the stored body fat is 50, the category is
    "Obese" and only fat loss is allowed. *)
Theorem cleared_height_as_shown (s : State) :
  s.(formData).(height) = 0 ->
  is_finite (circumferenceTerm s.(formData)) = true ->
  calculateBodyFat s.(formData) = infinity
  /\ exists s' b,
       calculateBaseStats s = Some s'
       /\ s'.(baseResults) = Some b
       /\ b.(bodyFatPercentage) = 50
       /\ b.(bodyFatCategory) = "Obese"
       /\ b.(allowedGoals) = onlyFatLoss.
Proof.
  intros Hh Hf.
  assert (Hraw : calculateBodyFat s.(formData) = infinity).
  { rewrite calculateBodyFat_logArgument. unfold circumferenceTerm in Hf.
    rewrite Hh. change (0 / 2.54) with 0. rewrite (log10_zero 0 eq_refl).
    destruct s.(formData).(gender).
    - change (70.041 * neg_infinity) with neg_infinity.
      rewrite (sub_finite_neg_infinity _ Hf). reflexivity.
    - change (97.684 * neg_infinity) with neg_infinity.
      rewrite (sub_finite_neg_infinity _ Hf). reflexivity. }
  split; [exact Hraw|].
  destruct (calculateBaseStats_total s) as [entry [He Hs]].
  rewrite Hraw in He, Hs.
  change (clamp_0_50 infinity) with 50 in He, Hs.
  assert (Hcat : entry.(category) = "Obese")
    by (destruct s.(formData).(gender); cbn in He; injection He as <-; reflexivity).
  eexists _, _. split; [exact Hs|]. split; [reflexivity|].
  cbn [bodyFatPercentage bodyFatCategory allowedGoals].
  repeat split; try assumption;
    destruct s.(formData).(gender); reflexivity.
Qed.

End DegenerateShown.

Lemma nan_bodyFat_as_shown_witness :
  exists s' b,
    calculateBaseStats
      (handleInputChange (set_neck 70)
         (handleInputChange (set_waist 30) initialState)) = Some s'
    /\ s'.(baseResults) = Some b
    /\ b.(bodyFatPercentage) = nan
    /\ b.(leanBodyMass) = nan
    /\ b.(baseCalories) = nan
    /\ b.(bodyFatCategory) = "Obese"
    /\ b.(allowedGoals) = allGoals
    /\ restrictionIconIsCheck b = true.
Proof.
  apply (nan_bodyFat_as_shown
           (handleInputChange (set_neck 70)
              (handleInputChange (set_waist 30) initialState))).
  vm_compute. reflexivity.
Defined.

Lemma cleared_height_as_shown_witness :
  calculateBodyFat
    (handleInputChange (set_height 0) initialState).(formData) = infinity
  /\ exists s' b,
       calculateBaseStats (handleInputChange (set_height 0) initialState)
       = Some s'
       /\ s'.(baseResults) = Some b
       /\ b.(bodyFatPercentage) = 50
       /\ b.(bodyFatCategory) = "Obese"
       /\ b.(allowedGoals) = onlyFatLoss.
Proof.
  apply (cleared_height_as_shown
           (handleInputChange (set_height 0) initialState)).
  - reflexivity.
  - vm_compute. reflexivity.
Defined.
